(** * AWS multi-account access manager: the credential profile store

    A shallow embedding of [account_manager.py] and the properties of its
    credentials-file rewrite, its configuration validation and its
    role-assumption driver.

    Conventions of the embedding.
    - A Python [str] is a [string]; each [ascii] stands for the code point
      of the same number, so the texts covered are those whose code points
      are below 256.  The character classes of [str.strip], [str.isspace]
      and [str.isdigit] are the ones CPython uses on that range.
    - A text file opened with [open(path, 'r')] is read with universal
      newlines: [readlines] translates CR LF and CR to LF and splits after
      every LF.  Writing is the POSIX case, where LF is written as it is.
    - A Python call either returns or raises: [outcome].
    - Files, the clock, the console and the STS endpoint are explicit:
      [world] holds what the program can change, [env] what it can only
      observe, including the faults the operating system may inject. *)

From Stdlib Require Import Bool Arith ZArith Lia List Ascii String.
Import ListNotations.
Open Scope string_scope.
Open Scope list_scope.
Open Scope bool_scope.

Set Warnings "-register-all".

(* ================================================================== *)
(** ** Python strings *)

Module PyStr.

Definition LF : ascii := Ascii.ascii_of_nat 10.
Definition CR : ascii := Ascii.ascii_of_nat 13.

(** The text ["\n"]. *)
Definition nl : string := String LF "".

(** [s + "\n"]. *)
Definition ln (s : string) : string := s ++ nl.

(** [c.isspace()] for a code point below 256: TAB..CR, FS..US, SPACE,
    NEL (0x85) and NBSP (0xA0). *)
Definition isspace (c : ascii) : bool :=
  let n := nat_of_ascii c in
  (((9 <=? n) && (n <=? 13)) || ((28 <=? n) && (n <=? 32))
   || (n =? 133) || (n =? 160))%nat.

(** [c.isdigit()] for a code point below 256: the decimal digits and the
    superscripts U+00B2, U+00B3 and U+00B9. *)
Definition isdigit_char (c : ascii) : bool :=
  let n := nat_of_ascii c in
  (((48 <=? n) && (n <=? 57)) || (n =? 178) || (n =? 179) || (n =? 185))%nat.

(** The ASCII digits ['0'..'9']. *)
Definition is_ascii_digit (c : ascii) : bool :=
  let n := nat_of_ascii c in ((48 <=? n) && (n <=? 57))%nat.

Fixpoint forallb_str (p : ascii -> bool) (s : string) : bool :=
  match s with
  | EmptyString => true
  | String c s' => p c && forallb_str p s'
  end.

(** [s.isdigit()]: at least one character, and all of them digits. *)
Definition isdigit (s : string) : bool :=
  match s with
  | EmptyString => false
  | _ => forallb_str isdigit_char s
  end.

(** [s.lstrip()]. *)
Fixpoint lstrip (s : string) : string :=
  match s with
  | EmptyString => EmptyString
  | String c s' => if isspace c then lstrip s' else s
  end.

(** [s.rstrip()]. *)
Fixpoint rstrip (s : string) : string :=
  match s with
  | EmptyString => EmptyString
  | String c s' =>
      match rstrip s' with
      | EmptyString => if isspace c then EmptyString else String c EmptyString
      | r => String c r
      end
  end.

(** [s.strip()]. *)
Definition strip (s : string) : string := lstrip (rstrip s).

(** [s.startswith(c)] for a one-character prefix. *)
Definition startswith (s : string) (c : ascii) : bool :=
  match s with
  | EmptyString => false
  | String d _ => Ascii.eqb d c
  end.

(** [s.endswith(c)] for a one-character suffix. *)
Fixpoint endswith (s : string) (c : ascii) : bool :=
  match s with
  | EmptyString => false
  | String d EmptyString => Ascii.eqb d c
  | String _ s' => endswith s' c
  end.

(** [needle in s] on strings. *)
Fixpoint contains (needle s : string) : bool :=
  String.prefix needle s
  || match s with
     | EmptyString => false
     | String _ s' => contains needle s'
     end.

(** Universal newlines, as applied by a text-mode read. *)
Fixpoint universal_newlines (s : string) : string :=
  match s with
  | EmptyString => EmptyString
  | String c s' =>
      if Ascii.eqb c CR then
        match s' with
        | String d _ =>
            if Ascii.eqb d LF then universal_newlines s'
            else String LF (universal_newlines s')
        | EmptyString => String LF EmptyString
        end
      else String c (universal_newlines s')
  end.

(** Splitting after every LF, the terminators kept. *)
Fixpoint split_keepends (s : string) : list string :=
  match s with
  | EmptyString => []
  | String c s' =>
      if Ascii.eqb c LF then nl :: split_keepends s'
      else match split_keepends s' with
           | [] => [String c EmptyString]
           | l :: ls => String c l :: ls
           end
  end.

(** [f.readlines()] on a file opened in text mode. *)
Definition readlines (content : string) : list string :=
  split_keepends (universal_newlines content).

(** [f.writelines(lines)]: the lines written one after the other. *)
Definition writelines (lines : list string) : string :=
  fold_right String.append EmptyString lines.

(** [s[:n]]. *)
Definition take (n : nat) (s : string) : string := String.substring 0 n s.

End PyStr.
Import PyStr.

(* ================================================================== *)
(** ** The credentials file rewrite: [save_credentials_to_profile] *)

(** The value of [response['Credentials']]. *)
Record credentials := {
  AccessKeyId : string;
  SecretAccessKey : string;
  SessionToken : string;
  Expiration : string
}.

Module Store.

(** [f"[{profile_name}]"]. *)
Definition header (profile_name : string) : string :=
  "[" ++ profile_name ++ "]".

(** [line.strip() == ''] *)
Definition blank (line : string) : bool := strip line =? "".

(** The variables of the [while] loop other than the index. *)
Record scan_state := {
  new_lines : list string;
  skip : bool;
  profile_found : bool
}.

Definition scan_init : scan_state :=
  {| new_lines := []; skip := false; profile_found := false |}.

(** [i + 1 < len(lines) and lines[i + 1].strip() == ''], where [rest] is
    [lines[i+1:]]. *)
Definition next_is_blank (rest : list string) : bool :=
  match rest with
  | next :: _ => blank next
  | [] => false
  end.

(** The [while i < len(lines)] loop; [rest] is [lines[i:]]. *)
Fixpoint scan_loop (profile_name : string) (rest : list string)
         (st : scan_state) : scan_state :=
  match rest with
  | [] => st
  | line :: rest' =>
      if strip line =? header profile_name then
        scan_loop profile_name rest'
          {| new_lines := new_lines st; skip := true; profile_found := true |}
      else
        let skip1 :=
          if skip st && startswith line "[" then false else skip st in
        if negb skip1 then
          if blank line && next_is_blank rest' then
            scan_loop profile_name rest'
              {| new_lines := new_lines st; skip := skip1;
                 profile_found := profile_found st |}
          else
            scan_loop profile_name rest'
              {| new_lines := new_lines st ++ [line]; skip := skip1;
                 profile_found := profile_found st |}
        else
          scan_loop profile_name rest'
            {| new_lines := new_lines st; skip := skip1;
               profile_found := profile_found st |}
  end.

(** [new_lines[-1]] when [new_lines] is not empty. *)
Definition last_line (ls : list string) : option string :=
  match ls with
  | [] => None
  | l :: ls' => Some (last ls' l)
  end.

(** "Add spacing before new profile if file has content". *)
Definition add_spacing (ls : list string) : list string :=
  match last_line ls with
  | Some l => if negb (blank l) then ls ++ [nl] else ls
  | None => ls
  end.

(** The four lines appended for the new profile. *)
Definition block_lines (profile_name : string) (c : credentials)
  : list string :=
  [ ln (header profile_name);
    ln ("aws_access_key_id = " ++ AccessKeyId c);
    ln ("aws_secret_access_key = " ++ SecretAccessKey c);
    ln ("aws_session_token = " ++ SessionToken c) ].

(** Lines 182-218: from the lines read to the lines written. *)
Definition rewrite_lines (profile_name : string) (c : credentials)
           (lines : list string) : list string :=
  add_spacing (new_lines (scan_loop profile_name lines scan_init))
  ++ block_lines profile_name c.

(** The text written for a file that held [content]: what
    [save_credentials_to_profile] leaves in the file when nothing fails
    (lemma [save_credentials_to_profile_ok]). *)
Definition rewrite_text (profile_name : string) (c : credentials)
           (content : string) : string :=
  writelines (rewrite_lines profile_name c (readlines content)).

End Store.

(* ================================================================== *)
(** ** Python values, exceptions and the outside world *)

(** What [json.load] returns.  A float is kept as its bit pattern: no
    branch of the program looks at a number.  The [fields] of an object
    are the items of the [dict], one per key. *)
Inductive json :=
| JNull
| JBool (b : bool)
| JInt (n : Z)
| JFloat (bits : Z)
| JString (s : string)
| JArray (items : list json)
| JObject (fields : list (string * json)).

(** The exceptions of the program, all of them subclasses of [Exception].
    A [ConfigError] carries the f-string it was built from; [IOError] is
    [OSError].  [str(e)] is the text carried, where the program formats
    it.  Asynchronous exits that are no [Exception] ([KeyboardInterrupt],
    [SystemExit]) are outside the embedding. *)
Inductive exn :=
| ConfigError (m : config_msg)
| JSONDecodeError (text : string)
| OSError (text : string)
| TypeError
| AttributeError
| KeyError (key : string)
| NoCredentialsError (text : string)
| OtherException (text : string)
with config_msg :=
| MissingAccountsKey                 (* "Config must contain 'accounts' key" *)
| AccountsNotList                    (* "'accounts' must be a list" *)
| MissingName (index : nat)          (* "Account at index {i} missing 'name' field" *)
| MissingAccountId (name : json)     (* "Account '{name}' missing 'account_id' field" *)
| InvalidAccountId (name : json)     (* "Account '{name}' has invalid account_id format" *)
| InvalidJSON (cause : exn)          (* "Invalid JSON in config file: {str(e)}" *)
| ErrorLoading (cause : exn).        (* "Error loading config: {str(e)}" *)

Inductive outcome (A : Type) :=
| Ret (a : A)
| Raise (e : exn).
Arguments Ret {A} a.
Arguments Raise {A} e.

(** What [sts_client.assume_role(...)] does, the response being one the
    service model allows: it has [Credentials] with all four members. *)
Inductive assume_role_result :=
| Assumed (c : credentials)
| ClientError (code msg : string)    (* [e.response['Error']] *)
| Failed (text : string).            (* any other [Exception], [str(e)] *)

(** What [sts_client.get_caller_identity()] does. *)
Inductive identity_result :=
| Identity (account arn user_id : string)
| IdentityClientError (msg : string)
| IdentityNoCredentials.

(** How the [open(credentials_file, 'w')] / [writelines] block ends:
    it completes, [open] fails and nothing is touched, or the file is
    opened (and so truncated) and the write fails when only the first
    [flushed] characters have reached it. *)
Inductive write_outcome :=
| WriteOk
| OpenFails (text : string)
| WriteFails (text : string) (flushed : nat).

(** How the [open(log_file, 'a')] / [write] block ends when it raises
    [IOError]: the text of the error, and how many characters of the
    entry and its newline had reached the file by then, none when [open]
    fails.  The file is appended to in place. *)
Definition append_fault : Type := (string * nat)%type.

(** What a failed [open(config_file, 'w')] / [json.dump] block leaves of
    the file: nothing when [open] raises; otherwise the file has been
    created and holds the part of the text written by then.  A part that
    is not the whole text is no JSON value, the closing brace being the
    last character of the text: [json.load] rejects it with a
    [JSONDecodeError], whose text depends on where the part ends. *)
Inductive torn_file :=
| NotCreated
| Fragment (decode_error : string)
| Whole.

(** One [print] call, or one group of them, with the values it shows. *)
Inductive message :=
| MsgConfigNotFound
| MsgCreatedDefault
| MsgNoCredentialsHelp
| MsgAccounts (accounts : json)
| MsgAccountNotFound (account_name : string) (accounts : json)
| MsgNoRoleArn (account_name : string)
| MsgAssuming (account_name : string)
| MsgAssumed (expiration : string)
| MsgErrorAssuming (code msg : string)
| MsgAccessDeniedCauses
| MsgUnexpected (text : string)
| MsgProfileSaved (action profile_name : string)
| MsgWriteError (text : string)
| MsgLogWarning (text : string)
| MsgIdentity (account arn user_id : string)
| MsgIdentityError (msg : string)
| MsgIdentityNoCredentials
| MsgInitFailed (e : exn)
| MsgUsage
| MsgMissingAccount
| MsgUnknownCommand (command : string).

(** What the program can change. *)
Record world := {
  config_file : option (outcome json);   (* accounts.json: absent, or what
                                            [open] + [json.load] gives *)
  credentials_file : option string;      (* ~/.aws/credentials *)
  access_log : string;                   (* access_log.txt *)
  console : list message
}.

(** What the program can only observe. *)
Record env := {
  argv : list string;
  now_session : string;                  (* now().strftime('%Y%m%d-%H%M%S') *)
  now_log : string;                      (* now().strftime('%Y-%m-%d %H:%M:%S') *)
  sts_client : option exn;               (* [boto3.client('sts')] raising *)
  sts_assume_role : json -> string -> assume_role_result;
  sts_get_caller_identity : identity_result;
  create_config_fault : option (exn * torn_file);
                                         (* writing the default config: the
                                            exception, and what is left *)
  mkdir_fault : option exn;              (* [aws_dir.mkdir(exist_ok=True)] *)
  read_fault : option exn;               (* reading the credentials file *)
  write_fault : write_outcome;           (* writing the credentials file *)
  log_fault : option append_fault        (* appending to the log: [IOError] *)
}.

(** A method body: it changes the world and returns or raises. *)
Definition M (A : Type) : Type := world -> world * outcome A.

Definition ret {A} (a : A) : M A := fun w => (w, Ret a).
Definition raise {A} (e : exn) : M A := fun w => (w, Raise e).
Definition bind {A B} (m : M A) (k : A -> M B) : M B :=
  fun w =>
    match m w with
    | (w', Ret a) => k a w'
    | (w', Raise e) => (w', Raise e)
    end.
Definition lift {A} (o : outcome A) : M A := fun w => (w, o).

(** [try: m except Exception as e: h e]. *)
Definition try_except {A} (m : M A) (h : exn -> M A) : M A :=
  fun w =>
    match m w with
    | (w', Ret a) => (w', Ret a)
    | (w', Raise e) => h e w'
    end.

Definition print (m : message) : M unit :=
  fun w =>
    ({| config_file := config_file w;
        credentials_file := credentials_file w;
        access_log := access_log w;
        console := console w ++ [m] |}, Ret tt).

Definition get_world : M world := fun w => (w, Ret w).

Definition set_config_file (c : option (outcome json)) : M unit :=
  fun w =>
    ({| config_file := c;
        credentials_file := credentials_file w;
        access_log := access_log w;
        console := console w |}, Ret tt).

Definition set_credentials_file (c : option string) : M unit :=
  fun w =>
    ({| config_file := config_file w;
        credentials_file := c;
        access_log := access_log w;
        console := console w |}, Ret tt).

Definition set_access_log (l : string) : M unit :=
  fun w =>
    ({| config_file := config_file w;
        credentials_file := credentials_file w;
        access_log := l;
        console := console w |}, Ret tt).

Declare Scope py_scope.
Delimit Scope py_scope with py.
Notation "x <- m ;; k" := (bind m (fun x => k))
  (at level 61, m at next level, right associativity) : py_scope.
Notation "m ;; k" := (bind m (fun _ => k))
  (at level 61, right associativity) : py_scope.
Open Scope py_scope.

(* ------------------------------------------------------------------ *)
(** *** The operators the program applies to decoded JSON *)

Module PyJson.

(** [key == v] for a string [key]. *)
Definition eq_str (key : string) (v : json) : bool :=
  match v with
  | JString s => s =? key
  | _ => false
  end.

Fixpoint lookup (key : string) (fields : list (string * json))
  : option json :=
  match fields with
  | [] => None
  | (k, v) :: fields' => if k =? key then Some v else lookup key fields'
  end.

(** [key in container]. *)
Definition contains_key (key : string) (container : json) : outcome bool :=
  match container with
  | JObject fields =>
      Ret (match lookup key fields with Some _ => true | None => false end)
  | JArray items => Ret (existsb (eq_str key) items)
  | JString s => Ret (PyStr.contains key s)
  | JNull | JBool _ | JInt _ | JFloat _ => Raise TypeError
  end.

(** [container[key]] for a string [key]. *)
Definition getitem (container : json) (key : string) : outcome json :=
  match container with
  | JObject fields =>
      match lookup key fields with
      | Some v => Ret v
      | None => Raise (KeyError key)
      end
  | _ => Raise TypeError
  end.

(** [isinstance(v, list)]. *)
Definition is_list (v : json) : bool :=
  match v with
  | JArray _ => true
  | _ => false
  end.

(** [bool(v)]. *)
Definition truthy (v : json) : bool :=
  match v with
  | JNull => false
  | JBool b => b
  | JInt n => negb (Z.eqb n 0)
  | JFloat bits => negb (Z.eqb (Z.land bits (Z.ones 63)) 0)
  | JString s => negb (s =? "")
  | JArray items => match items with [] => false | _ => true end
  | JObject fields => match fields with [] => false | _ => true end
  end.

(** [v.isdigit()]: only a [str] has the method. *)
Definition isdigit (v : json) : outcome bool :=
  match v with
  | JString s => Ret (PyStr.isdigit s)
  | _ => Raise AttributeError
  end.

(** [len(v)]. *)
Definition len (v : json) : outcome nat :=
  match v with
  | JString s => Ret (String.length s)
  | JArray items => Ret (List.length items)
  | JObject fields => Ret (List.length fields)
  | _ => Raise TypeError
  end.

(** The elements a [for] loop over [v] visits, when it visits values
    of a list. *)
Definition items_of (v : json) : list json :=
  match v with
  | JArray items => items
  | _ => []
  end.

End PyJson.

(* ================================================================== *)
(** ** [class AccountManager] *)

Module AccountManager.

Import PyJson.

(** The dictionary written by [create_default_config]. *)
Definition default_config : json :=
  JObject
    [ ("accounts",
       JArray
         [ JObject [ ("name", JString "main");
                     ("account_id", JString "949396396071");
                     ("description", JString "Main AWS Account") ];
           JObject [ ("name", JString "dev");
                     ("account_id", JString "093218045525");
                     ("role_arn",
                      JString "arn:aws:iam::093218045525:role/CrossAccountAdminRole");
                     ("description", JString "Development Account") ] ]) ].

(** The body of the [for i, account in enumerate(...)] loop of
    [validate_config], from index [i] on. *)
Fixpoint validate_accounts (i : nat) (accounts : list json) : outcome unit :=
  match accounts with
  | [] => Ret tt
  | account :: accounts' =>
      match contains_key "name" account with
      | Raise e => Raise e
      | Ret false => Raise (ConfigError (MissingName i))
      | Ret true =>
          match contains_key "account_id" account with
          | Raise e => Raise e
          | Ret false =>
              match getitem account "name" with
              | Raise e => Raise e
              | Ret name => Raise (ConfigError (MissingAccountId name))
              end
          | Ret true =>
              match getitem account "account_id" with
              | Raise e => Raise e
              | Ret account_id =>
                  match isdigit account_id with
                  | Raise e => Raise e
                  | Ret digits =>
                      (* [not a.isdigit() or len(a) != 12] *)
                      match (if negb digits then Ret true
                             else match len account_id with
                                  | Ret n => Ret (negb (n =? 12)%nat)
                                  | Raise e => Raise e
                                  end) with
                      | Raise e => Raise e
                      | Ret true =>
                          match getitem account "name" with
                          | Raise e => Raise e
                          | Ret name =>
                              Raise (ConfigError (InvalidAccountId name))
                          end
                      | Ret false => validate_accounts (S i) accounts'
                      end
                  end
              end
          end
      end
  end.

(** [validate_config(self, config)]. *)
Definition validate_config (config : json) : outcome unit :=
  match contains_key "accounts" config with
  | Raise e => Raise e
  | Ret false => Raise (ConfigError MissingAccountsKey)
  | Ret true =>
      match getitem config "accounts" with
      | Raise e => Raise e
      | Ret accounts =>
          if negb (is_list accounts) then Raise (ConfigError AccountsNotList)
          else validate_accounts 0 (items_of accounts)
      end
  end.

Section Methods.

Variable e : env.

(** [create_default_config(self)].  The file is created by [open], before
    anything is written: when the block raises, the file is absent only
    if [open] itself raised. *)
Definition create_default_config : M unit :=
  match create_config_fault e with
  | Some (ex, NotCreated) => raise ex
  | Some (ex, Fragment decode_error) =>
      set_config_file (Some (Raise (JSONDecodeError decode_error))) ;;
      raise ex
  | Some (ex, Whole) =>
      set_config_file (Some (Ret default_config)) ;;
      raise ex
  | None =>
      set_config_file (Some (Ret default_config)) ;;
      print MsgCreatedDefault
  end.

(** The two handlers of [load_config], in the order they are tried. *)
Definition load_config_handler (ex : exn) : M json :=
  match ex with
  | JSONDecodeError _ => raise (ConfigError (InvalidJSON ex))
  | _ => raise (ConfigError (ErrorLoading ex))
  end.

(** [load_config(self)]. *)
Definition load_config : M json :=
  w <- get_world ;;
  (match config_file w with
   | None => print MsgConfigNotFound ;; create_default_config
   | Some _ => ret tt
   end) ;;
  try_except
    (w' <- get_world ;;
     config <- lift (match config_file w' with
                     | Some r => r
                     | None => Raise (OSError "No such file or directory")
                     end) ;;
     lift (validate_config config) ;;
     ret config)
    load_config_handler.

(** [__init__(self)]: the configuration the manager holds. *)
Definition init : M json :=
  config <- load_config ;;
  match sts_client e with
  | Some ex =>
      match ex with
      | NoCredentialsError _ => print MsgNoCredentialsHelp ;; raise ex
      | _ => raise ex
      end
  | None => ret config
  end.

(** [list_accounts(self)]. *)
Definition list_accounts (config : json) : M unit :=
  accounts <- lift (getitem config "accounts") ;;
  print (MsgAccounts accounts).

(** [log_access(self, account_name, session_name, success, error)]:
    the line it builds. *)
Definition log_entry (account_name session_name : string)
           (success : bool) (error : option string) : string :=
  let status : string := if success then "SUCCESS" else "FAILED" in
  let entry : string :=
    (now_log e ++ " - " ++ status ++ " - Account: '" ++ account_name
     ++ "' - Session: " ++ session_name)%string in
  match error with
  | Some err =>
      if err =? "" then entry else (entry ++ " - Error: " ++ err)%string
  | None => entry
  end.

(** [log_access(self, account_name, session_name, success, error)].  An
    [IOError] is caught after the part of the entry that was flushed has
    been appended. *)
Definition log_access (account_name session_name : string)
           (success : bool) (error : option string) : M unit :=
  let entry := log_entry account_name session_name success error in
  match log_fault e with
  | None =>
      w <- get_world ;;
      set_access_log (access_log w ++ entry ++ nl)%string
  | Some (text, flushed) =>
      w <- get_world ;;
      set_access_log (access_log w ++ take flushed (entry ++ nl))%string ;;
      print (MsgLogWarning text)
  end.

(** The first account whose [name] equals [account_name]. *)
Fixpoint find_account (account_name : string) (accounts : list json)
  : outcome (option json) :=
  match accounts with
  | [] => Ret None
  | acc :: accounts' =>
      match getitem acc "name" with
      | Raise ex => Raise ex
      | Ret name =>
          if eq_str account_name name then Ret (Some acc)
          else find_account account_name accounts'
      end
  end.

(** [assume_role(self, account_name, session_name=None)].  An absent
    or empty [session_name] is replaced by the generated one.  The
    argument [account['role_arn']] is evaluated inside the [try]; it
    does not raise there, the account being a dictionary that has the
    key (lemma [role_arn_present]). *)
Definition assume_role (config : json) (account_name : string)
           (session_name : option string) : M (option credentials) :=
  accounts <- lift (getitem config "accounts") ;;
  found <- lift (find_account account_name (items_of accounts)) ;;
  match found with
  | None =>
      print (MsgAccountNotFound account_name accounts) ;; ret None
  | Some account =>
      if negb (truthy account) then
        print (MsgAccountNotFound account_name accounts) ;; ret None
      else
        has_role <- lift (contains_key "role_arn" account) ;;
        if negb has_role then
          print (MsgNoRoleArn account_name) ;; ret None
        else
          let session : string :=
            match session_name with
            | Some s =>
                if s =? "" then ("session-" ++ now_session e)%string else s
            | None => ("session-" ++ now_session e)%string
            end in
          print (MsgAssuming account_name) ;;
          role_arn <- lift (getitem account "role_arn") ;;
          match sts_assume_role e role_arn session with
          | Assumed c =>
              print (MsgAssumed (Expiration c)) ;;
              log_access account_name session true None ;;
              ret (Some c)
          | ClientError code msg =>
              print (MsgErrorAssuming code msg) ;;
              (if code =? "AccessDenied"
               then print MsgAccessDeniedCauses else ret tt) ;;
              log_access account_name session false (Some msg) ;;
              ret None
          | Failed text =>
              print (MsgUnexpected text) ;;
              log_access account_name session false (Some text) ;;
              ret None
          end
  end.

(** [if not profile_name: profile_name = f"assumed-{account_name}"]:
    [None] and the empty string are both replaced. *)
Definition effective_profile (account_name : string)
           (profile_name : option string) : string :=
  match profile_name with
  | Some p => if p =? "" then ("assumed-" ++ account_name)%string else p
  | None => ("assumed-" ++ account_name)%string
  end.

(** [save_credentials_to_profile(self, account_name, credentials,
    profile_name=None)]. *)
Definition save_credentials_to_profile (account_name : string)
           (c : credentials) (profile_name : option string) : M unit :=
  let profile := effective_profile account_name profile_name in
  match mkdir_fault e with
  | Some ex => raise ex
  | None =>
      w <- get_world ;;
      lines <- match credentials_file w with
               | Some content =>
                   match read_fault e with
                   | Some ex => raise ex
                   | None => ret (readlines content)
                   end
               | None => ret []
               end ;;
      let st := Store.scan_loop profile lines Store.scan_init in
      let new_lines :=
        Store.add_spacing (Store.new_lines st)
        ++ Store.block_lines profile c in
      match write_fault e with
      | WriteOk =>
          set_credentials_file (Some (writelines new_lines)) ;;
          print (MsgProfileSaved
                   (if Store.profile_found st then "Updated" else "Created")
                   profile)
      | OpenFails text => print (MsgWriteError text)
      | WriteFails text flushed =>
          set_credentials_file
            (Some (take flushed (writelines new_lines))) ;;
          print (MsgWriteError text)
      end
  end.

(** [get_current_identity(self)]. *)
Definition get_current_identity : M unit :=
  match sts_get_caller_identity e with
  | Identity account arn user_id => print (MsgIdentity account arn user_id)
  | IdentityClientError msg => print (MsgIdentityError msg)
  | IdentityNoCredentials => print MsgIdentityNoCredentials
  end.

(** [sys.argv[n]] for an index known to be in range. *)
Definition arg (n : nat) : string := nth n (argv e) "".

(** The commands of [main], once the manager exists. *)
Definition run_command (config : json) : M unit :=
  if (List.length (argv e) <? 2)%nat then print MsgUsage
  else
    let command := arg 1 in
    if command =? "list" then list_accounts config
    else if command =? "assume" then
      if (List.length (argv e) <? 3)%nat then print MsgMissingAccount
      else
        let account_name := arg 2 in
        credentials <- assume_role config account_name None ;;
        match credentials with
        | Some c => save_credentials_to_profile account_name c None
        | None => ret tt
        end
    else if command =? "whoami" then get_current_identity
    else print (MsgUnknownCommand command).

(** The handler of [main]: [except (ConfigError, NoCredentialsError)]. *)
Definition main_handler (ex : exn) : M (option json) :=
  match ex with
  | ConfigError _ | NoCredentialsError _ =>
      print (MsgInitFailed ex) ;; ret None
  | _ => raise ex
  end.

(** [main()]. *)
Definition main : M unit :=
  manager <- try_except (config <- init ;; ret (Some config)) main_handler ;;
  match manager with
  | None => ret tt
  | Some config => run_command config
  end.

End Methods.

End AccountManager.

(* ================================================================== *)
(** ** Notions used to state the properties *)

Module Lines.

Import Store.

(** The line is a header of the profile being written. *)
Definition is_target (profile_name line : string) : bool :=
  strip line =? header profile_name.

(** The first pass of the loop on its own: the lines outside every
    skipped region, starting in skip mode [skip]. *)
Fixpoint excise (profile_name : string) (skip : bool) (lines : list string)
  : list string :=
  match lines with
  | [] => []
  | line :: rest =>
      if is_target profile_name line then excise profile_name true rest
      else
        let skip1 := if skip && startswith line "[" then false else skip in
        if skip1 then excise profile_name skip1 rest
        else line :: excise profile_name skip1 rest
  end.

(** The second pass on its own: of every run of blank lines only the
    last one stays. *)
Fixpoint collapse_blank_runs (lines : list string) : list string :=
  match lines with
  | [] => []
  | line :: rest =>
      if blank line && next_is_blank rest then collapse_blank_runs rest
      else line :: collapse_blank_runs rest
  end.

(** The lines the loop appends, from [lines] on and in skip mode [skip]. *)
Fixpoint retained (profile_name : string) (skip : bool) (lines : list string)
  : list string :=
  match lines with
  | [] => []
  | line :: rest =>
      if is_target profile_name line then retained profile_name true rest
      else
        let skip1 := if skip && startswith line "[" then false else skip in
        if negb skip1 then
          if blank line && next_is_blank rest
          then retained profile_name skip1 rest
          else line :: retained profile_name skip1 rest
        else retained profile_name skip1 rest
  end.

(** No two neighbours are both blank. *)
Fixpoint no_blank_pair (lines : list string) : bool :=
  match lines with
  | [] => true
  | line :: rest => negb (blank line && next_is_blank rest) && no_blank_pair rest
  end.

(** The lines that are not blank, in order. *)
Definition solid (lines : list string) : list string :=
  filter (fun l => negb (blank l)) lines.

(** [C] is empty or opens with a line that has ['['] in column 0. *)
Definition opens_section (C : list string) : bool :=
  match C with
  | [] => true
  | line :: _ => startswith line "["
  end.

(** No ['['] in column 0. *)
Definition off_column_zero (line : string) : bool :=
  negb (startswith line "[").

(** The line opens with white space. *)
Definition indented (line : string) : bool :=
  match line with
  | EmptyString => false
  | String c _ => isspace c
  end.

(** The text has neither LF nor CR. *)
Definition single_line (s : string) : bool :=
  forallb_str (fun c => negb (Ascii.eqb c LF || Ascii.eqb c CR)) s.

Definition single_line_credentials (c : credentials) : bool :=
  single_line (AccessKeyId c) && single_line (SecretAccessKey c)
  && single_line (SessionToken c).

(** The text is empty or ends with a line terminator. *)
Definition newline_terminated (content : string) : bool :=
  match content with
  | EmptyString => true
  | _ => endswith content LF || endswith content CR
  end.

Definition no_lf (s : string) : bool :=
  forallb_str (fun c => negb (Ascii.eqb c LF)) s.

Definition no_cr (s : string) : bool :=
  forallb_str (fun c => negb (Ascii.eqb c CR)) s.

(** A line with its terminator, and no other. *)
Definition terminated (line : string) : Prop :=
  exists b, line = ln b /\ no_lf b = true.

(** The shape of what [readlines] returns: terminated lines, the last
    one possibly without its terminator. *)
Inductive line_list : list string -> Prop :=
| line_list_nil : line_list []
| line_list_open (o : string) :
    no_lf o = true -> o <> EmptyString -> line_list [o]
| line_list_cons (b : string) (rest : list string) :
    no_lf b = true -> line_list rest -> line_list (ln b :: rest).

(** The separator [add_spacing] appends, if any. *)
Definition spacing (lines : list string) : list string :=
  match Store.last_line lines with
  | Some l => if negb (Store.blank l) then [nl] else []
  | None => []
  end.

(** The lines of the text [lines ++ more] written out, when [lines] is
    a [line_list] and [more] holds terminated lines: a last line of
    [lines] that has no terminator runs into the first of [more]. *)
Fixpoint glue (lines more : list string) : list string :=
  match lines with
  | [] => more
  | l :: rest =>
      if endswith l LF then l :: glue rest more
      else match glue rest more with
           | [] => [l]
           | x :: xs => (l ++ x)%string :: xs
           end
  end.

(** What a read of the credentials file sees: nothing when it is absent. *)
Definition stored (w : world) : string :=
  match credentials_file w with
  | Some content => content
  | None => EmptyString
  end.

End Lines.

(** The worlds the theorems name. *)
Module Effects.

(** [w] after the prints [msgs]. *)
Definition printed (w : world) (msgs : list message) : world :=
  {| config_file := config_file w;
     credentials_file := credentials_file w;
     access_log := access_log w;
     console := console w ++ msgs |}.

(** [w] after the prints [msgs] and one call of [log_access] for
    [entry]: the line is appended, or the part of it that was flushed is
    appended and the warning is printed. *)
Definition audited (e : env) (w : world) (entry : string)
           (msgs : list message) : world :=
  {| config_file := config_file w;
     credentials_file := credentials_file w;
     access_log :=
       match log_fault e with
       | None => (access_log w ++ entry ++ nl)%string
       | Some (_, flushed) =>
           (access_log w ++ take flushed (entry ++ nl))%string
       end;
     console :=
       console w ++ msgs
       ++ match log_fault e with
          | None => []
          | Some (text, _) => [MsgLogWarning text]
          end |}.

(** [w] with the registry file as a failed [create_default_config] leaves
    it. *)
Definition left_as (w : world) (left : torn_file) : world :=
  {| config_file :=
       match left with
       | NotCreated => config_file w
       | Fragment decode_error => Some (Raise (JSONDecodeError decode_error))
       | Whole => Some (Ret AccountManager.default_config)
       end;
     credentials_file := credentials_file w;
     access_log := access_log w;
     console := console w |}.

(** [w] with the credentials file holding [content], after [msgs]. *)
Definition stored_as (w : world) (content : string) (msgs : list message)
  : world :=
  {| config_file := config_file w;
     credentials_file := Some content;
     access_log := access_log w;
     console := console w ++ msgs |}.

(** The message [load_config] wraps the exception [ex] in. *)
Definition wrapped (ex : exn) : config_msg :=
  match ex with
  | JSONDecodeError _ => InvalidJSON ex
  | _ => ErrorLoading ex
  end.

(** The characters of the text are ASCII. *)
Definition ascii_only (s : string) : bool :=
  forallb_str (fun c => (nat_of_ascii c <? 128)%nat) s.

(** The account name appears in the message of the error. *)
Fixpoint names_account (name : json) (ex : exn) : Prop :=
  match ex with
  | ConfigError m =>
      match m with
      | MissingAccountId n | InvalidAccountId n => n = name
      | InvalidJSON cause | ErrorLoading cause => names_account name cause
      | _ => False
      end
  | _ => False
  end.

End Effects.

(** Modelled from the spec: the block structure of section 4.1, which the
    program has no counterpart of.  "A line matching the pattern [<name>]
    (trimmed) opens a new block and closes the previous one.  Lines before
    the first header are discarded." *)
Module Spec.

(** A line that, trimmed, has the shape [[<name>]]. *)
Definition is_header (line : string) : bool :=
  let t := strip line in startswith t "[" && endswith t "]".

(** The lines up to the next header. *)
Fixpoint body (lines : list string) : list string :=
  match lines with
  | [] => []
  | line :: rest => if is_header line then [] else line :: body rest
  end.

(** The blocks of a text, each with its header line first. *)
Fixpoint parse (lines : list string) : list (list string) :=
  match lines with
  | [] => []
  | line :: rest =>
      if is_header line then (line :: body rest) :: parse rest
      else parse rest
  end.

(** The lines before the first header. *)
Definition prefix_lines (lines : list string) : list string := body lines.

End Spec.

(* ================================================================== *)
(** ** Concrete data for the examples *)

Module Sample.

Import Store.

Definition creds : credentials :=
  {| AccessKeyId := "ASIAEXAMPLEKEYID";
     SecretAccessKey := "wJalrXUtnFEMIEXAMPLEKEY";
     SessionToken := "FwoGZXIvYXdzEXAMPLETOKEN";
     Expiration := "2026-01-01 12:00:00+00:00" |}.

(** Three sections, the middle one to be replaced. *)
Definition section_main : list string := [ln "[main]"; ln "key=1"; nl].
Definition header_dev : string := ln "[dev]".
Definition body_dev : list string := [ln "key=old"; nl].
Definition section_qa : list string := [ln "[qa]"; ln "key=3"].
Definition three_sections : string :=
  writelines (section_main ++ header_dev :: body_dev ++ section_qa).

(** A section with a run of blank lines between two of its keys. *)
Definition section_gappy : list string :=
  [ln "[main]"; ln "key=1"; nl; nl; ln "key=2"].

(** A section whose header is indented. *)
Definition section_indented : list string := [ln "  [qa]"; ln "key=3"].

(** A file with a comment before its first section. *)
Definition with_prefix : list string :=
  [ln "# shared with the build host"; ln "[main]"; ln "key=1"].

(** A file whose last line has no terminator. *)
Definition unterminated : string := ln "[main]" ++ "key=1".

(** A registry of one account. *)
Definition registry (account_id : json) : json :=
  JObject
    [ ("accounts",
       JArray [ JObject [ ("name", JString "prod");
                          ("account_id", account_id);
                          ("role_arn",
                           JString "arn:aws:iam::123456789012:role/Admin") ] ]) ].

(** Twelve times U+00B2, SUPERSCRIPT TWO. *)
Definition superscript_id : string :=
  let c := Ascii.ascii_of_nat 178 in
  String c (String c (String c (String c (String c (String c
  (String c (String c (String c (String c (String c (String c
  EmptyString))))))))))).

(** The surroundings of one run: the arguments, what the STS call does,
    and the faults of the read, of the write and of the log. *)
Definition env_of (args : list string) (r : assume_role_result)
           (rf : option exn) (wf : write_outcome) (lf : option append_fault)
  : env :=
  {| argv := args;
     now_session := "20260101-120000";
     now_log := "2026-01-01 12:00:00";
     sts_client := None;
     sts_assume_role := fun _ _ => r;
     sts_get_caller_identity :=
       Identity "123456789012" "arn:aws:iam::123456789012:user/op" "AIDAEXAMPLE";
     create_config_fault := None;
     mkdir_fault := None;
     read_fault := rf;
     write_fault := wf;
     log_fault := lf |}.

Definition assume_prod : list string :=
  ["account_manager.py"; "assume"; "prod"].

(** An endpoint that grants every request, and no fault anywhere. *)
Definition env_ok (args : list string) : env :=
  env_of args (Assumed creds) None WriteOk None.

(** The same with one fault set. *)
Definition env_write_fault (f : write_outcome) : env :=
  env_of assume_prod (Assumed creds) None f None.

Definition env_read_fault (ex : exn) : env :=
  env_of assume_prod (Assumed creds) (Some ex) WriteOk None.

Definition env_log_fault (r : assume_role_result) (f : option append_fault)
  : env :=
  env_of assume_prod r None WriteOk f.

Definition env_mkdir_fault (ex : exn) : env :=
  {| argv := assume_prod;
     now_session := "20260101-120000";
     now_log := "2026-01-01 12:00:00";
     sts_client := None;
     sts_assume_role := fun _ _ => Assumed creds;
     sts_get_caller_identity := IdentityNoCredentials;
     create_config_fault := None;
     mkdir_fault := Some ex;
     read_fault := None;
     write_fault := WriteOk;
     log_fault := None |}.

(** A world with the registry [config] and the credentials [content]. *)
Definition world_with (config : outcome json) (content : option string)
  : world :=
  {| config_file := Some config;
     credentials_file := content;
     access_log := EmptyString;
     console := [] |}.

End Sample.

(* ================================================================== *)
(** ** Notions for the properties of the whole program *)

(** The registries [validate_config] lets through. *)
Module Registry.

Import PyJson.

(** A dictionary with a [name] and an [account_id] that is a string of
    twelve characters [str.isdigit] accepts. *)
Definition account_ok (account : json) : bool :=
  match account with
  | JObject fields =>
      match lookup "name" fields, lookup "account_id" fields with
      | Some _, Some (JString s) =>
          PyStr.isdigit s && (String.length s =? 12)%nat
      | _, _ => false
      end
  | _ => false
  end.

(** A dictionary whose [accounts] is a list of such entries. *)
Definition config_ok (config : json) : bool :=
  match config with
  | JObject fields =>
      match lookup "accounts" fields with
      | Some (JArray items) => forallb account_ok items
      | _ => false
      end
  | _ => false
  end.

(** The entry is a dictionary whose [name] is the string [account_name]. *)
Definition named (account_name : string) (account : json) : bool :=
  match account with
  | JObject fields =>
      match lookup "name" fields with
      | Some name => eq_str account_name name
      | None => false
      end
  | _ => false
  end.

End Registry.

(** What a method leaves alone, and when it returns. *)
Module Frames.

(** Every run of [m] takes a world to one related to it by [R]. *)
Definition keeps (R : world -> world -> Prop) {A : Type} (m : M A) : Prop :=
  forall w, R w (fst (m w)).

(** [m] returns, whatever the world. *)
Definition returns {A : Type} (m : M A) : Prop :=
  forall w, exists a, snd (m w) = Ret a.

Definition same_config (w w' : world) : Prop :=
  config_file w' = config_file w.

Definition same_credentials (w w' : world) : Prop :=
  credentials_file w' = credentials_file w.

(** The log has only grown at its end. *)
Definition log_extended (w w' : world) : Prop :=
  exists more, access_log w' = (access_log w ++ more)%string.

(** The registry, once there, is kept. *)
Definition config_kept (w w' : world) : Prop :=
  config_file w <> None -> config_file w' = config_file w.

(** Only the console differs. *)
Definition same_files (w w' : world) : Prop :=
  config_file w' = config_file w
  /\ credentials_file w' = credentials_file w
  /\ access_log w' = access_log w.

(** The number of line feeds in a text. *)
Fixpoint count_lf (s : string) : nat :=
  match s with
  | EmptyString => 0
  | String c s' => (if Ascii.eqb c LF then 1 else 0) + count_lf s'
  end.

End Frames.

(** Further data for the examples. *)
Module SampleMore.

(** Two entries of the same name; only the second has a role. *)
Definition twins : list json :=
  [ JObject [ ("name", JString "prod");
              ("account_id", JString "111111111111") ];
    JObject [ ("name", JString "prod");
              ("account_id", JString "222222222222");
              ("role_arn", JString "arn:aws:iam::222222222222:role/Admin") ] ].

Definition registry_of (accounts : list json) : json :=
  JObject [ ("accounts", JArray accounts) ].

(** A world without a registry. *)
Definition fresh_world : world :=
  {| config_file := None;
     credentials_file := None;
     access_log := EmptyString;
     console := [] |}.

(** A world whose log holds one entry. *)
Definition logged_world : world :=
  {| config_file := Some (Ret (Sample.registry (JString "123456789012")));
     credentials_file := Some Sample.three_sections;
     access_log :=
       ln "2025-12-31 09:00:00 - SUCCESS - Account: 'prod' - Session: s1";
     console := [] |}.

(** The default registry cannot be written. *)
Definition env_create_fault (ex : exn) (left : torn_file) : env :=
  {| argv := ["account_manager.py"; "list"];
     now_session := "20260101-120000";
     now_log := "2026-01-01 12:00:00";
     sts_client := None;
     sts_assume_role := fun _ _ => Assumed Sample.creds;
     sts_get_caller_identity := IdentityNoCredentials;
     create_config_fault := Some (ex, left);
     mkdir_fault := None;
     read_fault := None;
     write_fault := WriteOk;
     log_fault := None |}.

(** No credentials to create the STS client with. *)
Definition env_no_credentials (args : list string) : env :=
  {| argv := args;
     now_session := "20260101-120000";
     now_log := "2026-01-01 12:00:00";
     sts_client := Some (NoCredentialsError "Unable to locate credentials");
     sts_assume_role := fun _ _ => Assumed Sample.creds;
     sts_get_caller_identity := IdentityNoCredentials;
     create_config_fault := None;
     mkdir_fault := None;
     read_fault := None;
     write_fault := WriteOk;
     log_fault := None |}.

(** A file in good order: lines terminated, no blank runs, no [[dev]]. *)
Definition tidy : string :=
  writelines [ln "[main]"; ln "key=1"; nl; ln "[qa]"; ln "key=3"].

End SampleMore.

(* ================================================================== *)
(** ** Facts about Python strings *)

Section StringFacts.

Import Lines Store.

Lemma append_empty_r (s : string) : (s ++ "")%string = s.
Proof. induction s as [|c s IH]; simpl; [reflexivity | now rewrite IH]. Qed.

Lemma append_assoc (a b c : string) :
  ((a ++ b) ++ c)%string = (a ++ (b ++ c))%string.
Proof. induction a as [|x a IH]; simpl; [reflexivity | now rewrite IH]. Qed.

Lemma writelines_app (xs ys : list string) :
  writelines (xs ++ ys) = (writelines xs ++ writelines ys)%string.
Proof.
  induction xs as [|x xs IH]; simpl; [reflexivity|].
  now rewrite IH, append_assoc.
Qed.

Lemma forallb_str_app (p : ascii -> bool) (a b : string) :
  forallb_str p (a ++ b) = forallb_str p a && forallb_str p b.
Proof.
  induction a as [|c a IH]; simpl; [reflexivity|].
  rewrite IH. now rewrite andb_assoc.
Qed.

Lemma rstrip_solid (c : ascii) (s : string) :
  isspace c = false -> rstrip (String c s) = String c (rstrip s).
Proof.
  intros Hc. simpl. rewrite Hc. now destruct (rstrip s).
Qed.

Lemma strip_solid (c : ascii) (s : string) :
  isspace c = false -> strip (String c s) = String c (rstrip s).
Proof.
  intros Hc. unfold strip. rewrite (rstrip_solid c s Hc). simpl. now rewrite Hc.
Qed.

Lemma rstrip_empty_iff (s : string) :
  rstrip s = EmptyString <-> forallb_str isspace s = true.
Proof.
  induction s as [|c s IH]; simpl; [tauto|].
  destruct (rstrip s) eqn:R.
  - destruct (isspace c); simpl.
    + split; [intros _; now apply IH | reflexivity].
    + split; discriminate.
  - split; [discriminate|].
    intros H. apply andb_true_iff in H as [_ H].
    apply IH in H. discriminate.
Qed.

Lemma lstrip_all_space (s : string) :
  forallb_str isspace s = true -> lstrip s = EmptyString.
Proof.
  induction s as [|c s IH]; simpl; [reflexivity|].
  intros H. apply andb_true_iff in H as [Hc Hs]. rewrite Hc. now apply IH.
Qed.

Lemma lstrip_empty_all_space (s : string) :
  lstrip s = EmptyString -> forallb_str isspace s = true.
Proof.
  induction s as [|c s IH]; simpl; [reflexivity|].
  destruct (isspace c); simpl; [exact IH | discriminate].
Qed.

Lemma rstrip_last_solid (s : string) :
  forall c r, rstrip s = String c r ->
              exists d, endswith (rstrip s) d = true /\ isspace d = false.
Proof.
  induction s as [|x s IH]; simpl; [discriminate|].
  intros c r. destruct (rstrip s) as [|y t] eqn:R.
  - destruct (isspace x) eqn:Hx; [discriminate|].
    intros _. exists x. simpl. now rewrite Ascii.eqb_refl.
  - intros _. destruct (IH y t eq_refl) as [d [Hd Hs]].
    exists d. split; [|exact Hs]. simpl in *. exact Hd.
Qed.

Lemma endswith_all (p : ascii -> bool) (s : string) (d : ascii) :
  forallb_str p s = true -> endswith s d = true -> p d = true.
Proof.
  induction s as [|x s IH]; simpl; [discriminate|].
  intros H E. apply andb_true_iff in H as [Hx Hs].
  destruct s as [|y t].
  - apply Ascii.eqb_eq in E. now subst.
  - now apply IH.
Qed.

(** [line.strip() == ''] says that every character is white space. *)
Lemma blank_all_space (s : string) : blank s = forallb_str isspace s.
Proof.
  unfold blank, strip.
  destruct (forallb_str isspace s) eqn:A.
  - apply rstrip_empty_iff in A. now rewrite A.
  - apply String.eqb_neq. intros L.
    apply lstrip_empty_all_space in L.
    destruct (rstrip s) as [|c r] eqn:R.
    + apply rstrip_empty_iff in R. congruence.
    + destruct (rstrip_last_solid s c r R) as [d [Hd Hs]].
      rewrite R in Hd. rewrite (endswith_all isspace _ d L Hd) in Hs.
      discriminate.
Qed.

Lemma blank_app (a b : string) : blank (a ++ b) = blank a && blank b.
Proof. rewrite !blank_all_space. apply forallb_str_app. Qed.

Lemma blank_nl : blank nl = true.
Proof. reflexivity. Qed.

Lemma blank_ln (s : string) : blank (ln s) = blank s.
Proof. unfold ln. rewrite blank_app, blank_nl. apply andb_true_r. Qed.

Lemma blank_solid (c : ascii) (s : string) :
  isspace c = false -> blank (String c s) = false.
Proof. intros H. rewrite blank_all_space. simpl. now rewrite H. Qed.

Lemma rstrip_app_space (s t : string) :
  forallb_str isspace t = true -> rstrip (s ++ t) = rstrip s.
Proof.
  intros Ht. induction s as [|c s IH]; simpl.
  - now apply rstrip_empty_iff.
  - now rewrite IH.
Qed.

Lemma strip_ln (s : string) : strip (ln s) = strip s.
Proof. unfold strip, ln. now rewrite rstrip_app_space. Qed.

Lemma rstrip_ends_solid (s : string) (c : ascii) :
  isspace c = false ->
  rstrip (s ++ String c "") = (s ++ String c "")%string.
Proof.
  intros Hc. induction s as [|x s IH]; simpl.
  - now rewrite Hc.
  - rewrite IH. now destruct s.
Qed.

(** A header is its own trimmed text. *)
Lemma strip_header (name : string) : strip (header name) = header name.
Proof.
  unfold header. change ("[" ++ name ++ "]")%string
    with (String "[" (name ++ String "]" "")).
  rewrite strip_solid by reflexivity.
  now rewrite rstrip_ends_solid by reflexivity.
Qed.

Lemma is_target_header (name : string) :
  is_target name (ln (header name)) = true.
Proof.
  unfold is_target. rewrite strip_ln, strip_header. apply String.eqb_refl.
Qed.

Lemma startswith_bracket_solid (l : string) :
  startswith l "[" = true -> blank l = false.
Proof.
  destruct l as [|c l]; simpl; [discriminate|].
  intros H. apply Ascii.eqb_eq in H. subst. now apply blank_solid.
Qed.

Lemma is_target_solid (name l : string) :
  is_target name l = true -> blank l = false.
Proof.
  unfold is_target, blank. intros H. apply String.eqb_eq in H.
  rewrite H. reflexivity.
Qed.

Lemma blank_not_target (name l : string) :
  blank l = true -> is_target name l = false.
Proof.
  intros B. destruct (is_target name l) eqn:T; [|reflexivity].
  apply is_target_solid in T. congruence.
Qed.

(** A line that opens with a character other than white space and ['[']
    is no header of any profile. *)
Lemma other_start_not_target (name : string) (c : ascii) (s : string) :
  isspace c = false -> Ascii.eqb c "[" = false ->
  is_target name (String c s) = false.
Proof.
  intros Hs Hb. unfold is_target. rewrite strip_solid by exact Hs.
  unfold header. simpl. now rewrite Hb.
Qed.

Lemma leading_space_not_bracket (c : ascii) (s : string) :
  isspace c = true -> startswith (String c s) "[" = false.
Proof.
  intros H. simpl. destruct (Ascii.eqb c "[") eqn:E; [|reflexivity].
  apply Ascii.eqb_eq in E. subst. discriminate.
Qed.

End StringFacts.

(* ================================================================== *)
(** ** The loop: what it keeps *)

Section LoopFacts.

Import Lines Store.

Variable name : string.

(** The accumulator of the loop grows by [retained]. *)
Lemma scan_loop_new_lines (lines : list string) :
  forall st,
    new_lines (scan_loop name lines st)
    = new_lines st ++ retained name (skip st) lines.
Proof.
  induction lines as [|line rest IH]; intros st; simpl.
  - now rewrite app_nil_r.
  - unfold is_target.
    destruct (strip line =? header name); [now rewrite IH|].
    destruct (skip st && startswith line "["); simpl.
    + destruct (blank line && next_is_blank rest); rewrite IH; simpl;
        [reflexivity | now rewrite <- app_assoc].
    + destruct (skip st); simpl; [now rewrite IH|].
      destruct (blank line && next_is_blank rest); rewrite IH; simpl;
        [reflexivity | now rewrite <- app_assoc].
Qed.

(** [profile_found] records whether some line is a header of the profile. *)
Lemma scan_loop_profile_found (lines : list string) :
  forall st,
    profile_found (scan_loop name lines st)
    = profile_found st || existsb (is_target name) lines.
Proof.
  induction lines as [|line rest IH]; intros st; simpl.
  - now rewrite orb_false_r.
  - unfold is_target at 1.
    destruct (strip line =? header name); simpl.
    + rewrite IH. simpl. now rewrite orb_true_r.
    + destruct (negb (if skip st && startswith line "[" then false else skip st));
        [destruct (blank line && next_is_blank rest)|]; now rewrite IH.
Qed.

Lemma rewrite_lines_retained (c : credentials) (lines : list string) :
  rewrite_lines name c lines
  = add_spacing (retained name false lines) ++ block_lines name c.
Proof.
  unfold rewrite_lines. now rewrite scan_loop_new_lines.
Qed.

(** After a skipped region the next line kept opens with ['[']. *)
Lemma next_is_blank_excise_skipping (lines : list string) :
  next_is_blank (excise name true lines) = false.
Proof.
  induction lines as [|line rest IH]; simpl; [reflexivity|].
  destruct (is_target name line); [exact IH|].
  destruct (startswith line "[") eqn:S; simpl; [|exact IH].
  now apply startswith_bracket_solid.
Qed.

Lemma next_is_blank_excise (lines : list string) :
  next_is_blank (excise name false lines) = next_is_blank lines.
Proof.
  destruct lines as [|line rest]; simpl; [reflexivity|].
  destruct (is_target name line) eqn:T; [|reflexivity].
  rewrite next_is_blank_excise_skipping.
  symmetry. now apply is_target_solid with (name := name).
Qed.

(** The loop is the composition of its two passes. *)
Lemma retained_excise (lines : list string) :
  forall skip,
    retained name skip lines = collapse_blank_runs (excise name skip lines).
Proof.
  induction lines as [|line rest IH]; intros sk; simpl; [reflexivity|].
  destruct (is_target name line); [apply IH|].
  destruct (if sk && startswith line "[" then false else sk) eqn:S1; simpl.
  - apply IH.
  - rewrite next_is_blank_excise.
    destruct (blank line && next_is_blank rest); now rewrite IH.
Qed.

Lemma next_is_blank_collapse (lines : list string) :
  next_is_blank (collapse_blank_runs lines) = next_is_blank lines.
Proof.
  induction lines as [|line rest IH]; simpl; [reflexivity|].
  destruct (blank line && next_is_blank rest) eqn:B; simpl; [|reflexivity].
  apply andb_true_iff in B as [B1 B2]. now rewrite IH, B1, B2.
Qed.

Lemma no_blank_pair_collapse (lines : list string) :
  no_blank_pair (collapse_blank_runs lines) = true.
Proof.
  induction lines as [|line rest IH]; simpl; [reflexivity|].
  destruct (blank line && next_is_blank rest) eqn:B; simpl; [exact IH|].
  now rewrite next_is_blank_collapse, B, IH.
Qed.

Lemma collapse_no_blank_pair (lines : list string) :
  no_blank_pair lines = true -> collapse_blank_runs lines = lines.
Proof.
  induction lines as [|line rest IH]; simpl; [reflexivity|].
  intros H. apply andb_true_iff in H as [H1 H2].
  apply negb_true_iff in H1. rewrite H1. now rewrite IH.
Qed.

Lemma solid_collapse (lines : list string) :
  solid (collapse_blank_runs lines) = solid lines.
Proof.
  unfold solid.
  induction lines as [|line rest IH]; simpl; [reflexivity|].
  destruct (blank line) eqn:B; simpl.
  - destruct (next_is_blank rest); simpl; [exact IH|].
    now rewrite B.
  - now rewrite B, IH.
Qed.

(** A run of blank lines leaves its last line. *)
Lemma collapse_blank_run (run : list string) (b : string) (rest : list string) :
  forallb blank run = true -> blank b = true -> next_is_blank rest = false ->
  collapse_blank_runs (run ++ b :: rest) = b :: collapse_blank_runs rest.
Proof.
  intros Hrun Hb Hrest.
  induction run as [|x run IH]; simpl.
  - now rewrite Hrest, andb_false_r.
  - simpl in Hrun. apply andb_true_iff in Hrun as [Hx Hrun].
    rewrite Hx. simpl.
    assert (N : next_is_blank (run ++ b :: rest) = true).
    { destruct run as [|y run']; simpl; [exact Hb|].
      simpl in Hrun. now apply andb_true_iff in Hrun as [Hy _]. }
    rewrite N. now apply IH.
Qed.

(** Outside skip mode, lines that hold no header of the profile all
    pass the first pass. *)
Lemma excise_no_target (lines : list string) :
  existsb (is_target name) lines = false -> excise name false lines = lines.
Proof.
  induction lines as [|line rest IH]; simpl; [reflexivity|].
  intros H. apply orb_false_iff in H as [H1 H2].
  now rewrite H1, IH.
Qed.

Lemma excise_app_no_target (A rest : list string) :
  existsb (is_target name) A = false ->
  excise name false (A ++ rest) = A ++ excise name false rest.
Proof.
  induction A as [|line A IH]; simpl; [reflexivity|].
  intros H. apply orb_false_iff in H as [H1 H2].
  now rewrite H1, IH.
Qed.

(** In skip mode, lines without ['['] in column 0 are all dropped. *)
Lemma excise_skipping (B C : list string) :
  forallb off_column_zero B = true ->
  excise name true (B ++ C) = excise name true C.
Proof.
  induction B as [|line B IH]; simpl; [reflexivity|].
  intros H. apply andb_true_iff in H as [H1 H2].
  unfold off_column_zero in H1. apply negb_true_iff in H1. rewrite H1.
  destruct (is_target name line); now apply IH.
Qed.

(** A line with ['['] in column 0 is treated alike in both modes. *)
Lemma excise_opens_section (C : list string) (skip : bool) :
  opens_section C = true -> excise name true C = excise name skip C.
Proof.
  destruct C as [|line C]; simpl; [reflexivity|].
  intros H. rewrite H. destruct skip; reflexivity.
Qed.

(** The first pass drops a header of the profile and everything up to
    the next line with ['['] in column 0. *)
Lemma excise_block (A : list string) (h : string) (B C : list string) :
  is_target name h = true ->
  forallb off_column_zero B = true ->
  opens_section C = true ->
  forall skip,
    excise name skip (A ++ h :: B ++ C) = excise name skip (A ++ C).
Proof.
  intros Hh HB HC.
  induction A as [|line A IH]; intros sk; simpl.
  - rewrite Hh, excise_skipping by exact HB.
    now apply excise_opens_section.
  - destruct (is_target name line); [apply IH|].
    destruct (if sk && startswith line "[" then false else sk);
      now rewrite IH.
Qed.

Lemma no_blank_pair_app (A C : list string) :
  no_blank_pair A = true -> no_blank_pair C = true ->
  next_is_blank C = false ->
  no_blank_pair (A ++ C) = true.
Proof.
  intros HA HC HN.
  induction A as [|line A IH]; simpl; [exact HC|].
  simpl in HA. apply andb_true_iff in HA as [H1 H2].
  rewrite (IH H2), andb_true_r.
  destruct A as [|x A']; simpl in *; [|exact H1].
  now rewrite HN, andb_false_r.
Qed.

Lemma opens_section_next_solid (C : list string) :
  opens_section C = true -> next_is_blank C = false.
Proof.
  destruct C as [|line C]; simpl; [reflexivity|].
  apply startswith_bracket_solid.
Qed.

End LoopFacts.

(* ================================================================== *)
(** ** The block structure of the text written *)

Section BlockFacts.

Import Lines Store.

Lemma endswith_last (s : string) (c : ascii) :
  endswith (s ++ String c "") c = true.
Proof.
  induction s as [|x s IH]; simpl; [apply Ascii.eqb_refl|].
  destruct s; exact IH.
Qed.

Lemma is_header_target (name l : string) :
  is_target name l = true -> Spec.is_header l = true.
Proof.
  unfold is_target, Spec.is_header. intros H.
  apply String.eqb_eq in H. rewrite H. unfold header.
  change ("[" ++ name ++ "]")%string
    with (("[" ++ name) ++ String "]" "")%string.
  now rewrite endswith_last.
Qed.

Lemma not_header_other_start (c : ascii) (s : string) :
  isspace c = false -> Ascii.eqb c "[" = false ->
  Spec.is_header (String c s) = false.
Proof.
  intros Hs Hb. unfold Spec.is_header.
  rewrite strip_solid by exact Hs. simpl. now rewrite Hb.
Qed.

Lemma body_no_header (lines : list string) :
  existsb Spec.is_header lines = false -> Spec.body lines = lines.
Proof.
  induction lines as [|l lines IH]; simpl; [reflexivity|].
  intros H. apply orb_false_iff in H as [H1 H2]. now rewrite H1, IH.
Qed.

Lemma parse_no_header (lines : list string) :
  existsb Spec.is_header lines = false -> Spec.parse lines = [].
Proof.
  induction lines as [|l lines IH]; simpl; [reflexivity|].
  intros H. apply orb_false_iff in H as [H1 H2]. now rewrite H1, IH.
Qed.

Lemma body_app_header (xs : list string) (h : string) (ys : list string) :
  Spec.is_header h = true -> Spec.body (xs ++ h :: ys) = Spec.body xs.
Proof.
  intros Hh. induction xs as [|x xs IH]; simpl; [now rewrite Hh|].
  destruct (Spec.is_header x); [reflexivity | now rewrite IH].
Qed.

Lemma parse_app_header (xs : list string) (h : string) (ys : list string) :
  Spec.is_header h = true ->
  Spec.parse (xs ++ h :: ys) = Spec.parse xs ++ Spec.parse (h :: ys).
Proof.
  intros Hh. induction xs as [|x xs IH]; [reflexivity|].
  cbn [app Spec.parse]. rewrite IH.
  destruct (Spec.is_header x); [|reflexivity].
  now rewrite body_app_header.
Qed.

(** The lines before the first header hold no header of the profile,
    and the text is those lines followed by the rest. *)
Lemma prefix_lines_split (name : string) (lines : list string) :
  exists rest,
    lines = Spec.prefix_lines lines ++ rest
    /\ existsb (is_target name) (Spec.prefix_lines lines) = false.
Proof.
  unfold Spec.prefix_lines.
  induction lines as [|l lines [rest [E T]]]; simpl.
  - now exists [].
  - destruct (Spec.is_header l) eqn:H.
    + now exists (l :: lines).
    + exists rest. simpl. rewrite <- E, T. split; [reflexivity|].
      destruct (is_target name l) eqn:Tl; [|reflexivity].
      apply is_header_target in Tl. congruence.
Qed.

Lemma parse_one_block (h : string) (b : list string) :
  Spec.is_header h = true -> existsb Spec.is_header b = false ->
  Spec.parse (h :: b) = [h :: b].
Proof.
  intros Hh Hb. cbn [Spec.parse]. rewrite Hh.
  now rewrite body_no_header, parse_no_header.
Qed.

(** The block appended is one block of the text: a header and three
    lines that are no headers. *)
Lemma parse_block_lines (name : string) (c : credentials) :
  Spec.parse (block_lines name c) = [block_lines name c].
Proof.
  unfold block_lines. apply parse_one_block.
  - apply is_header_target with (name := name), is_target_header.
  - cbn [existsb]. unfold ln. cbn [append].
    rewrite !not_header_other_start by reflexivity. reflexivity.
Qed.

Lemma blank_block_lines (name : string) (c : credentials) :
  forallb (fun l => negb (blank l)) (block_lines name c) = true.
Proof.
  unfold block_lines, header, ln. cbn [forallb append].
  rewrite !blank_solid by reflexivity. reflexivity.
Qed.

Lemma solid_add_spacing (lines : list string) :
  solid (add_spacing lines) = solid lines.
Proof.
  unfold add_spacing. destruct (last_line lines) as [l|]; [|reflexivity].
  destruct (negb (blank l)); [|reflexivity].
  unfold solid. rewrite filter_app. simpl. apply app_nil_r.
Qed.

End BlockFacts.

(* ================================================================== *)
(** ** Properties of the rewrite *)

Section RewriteProperties.

Import Lines Store.

(** In skip mode a line without ['['] in column 0 changes nothing but
    [profile_found]: the loop goes on skipping. *)
Lemma scan_loop_keeps_skipping (name line : string) (rest : list string)
      (st : scan_state) :
  skip st = true -> startswith line "[" = false ->
  scan_loop name (line :: rest) st
  = scan_loop name rest
      {| new_lines := new_lines st; skip := true;
         profile_found := profile_found st || is_target name line |}.
Proof.
  intros Hs Hl. cbn [scan_loop]. unfold is_target.
  destruct (strip line =? header name).
  - now rewrite orb_true_r.
  - rewrite Hs, Hl, orb_false_r. reflexivity.
Qed.

(** C9.  Once a header of the profile has been met, the loop goes on
    skipping over every line that does not have ['['] as its first
    character.  An indented header does not end the skipping, so the
    section it opens is removed with the profile's own lines: the lines
    written are the ones that would be written had the header [h], the
    lines [body], the indented header [ih] and its [section] not been
    there. *)
Theorem indented_section_removed
        (name : string) (c : credentials)
        (A : list string) (h : string) (body : list string)
        (ih : string) (section C : list string) :
  is_target name h = true ->
  forallb off_column_zero body = true ->
  indented ih = true ->
  Spec.is_header ih = true ->
  forallb off_column_zero section = true ->
  opens_section C = true ->
  (forall line rest st,
      skip st = true -> startswith line "[" = false ->
      scan_loop name (line :: rest) st
      = scan_loop name rest
          {| new_lines := new_lines st; skip := true;
             profile_found := profile_found st || is_target name line |})
  /\ rewrite_lines name c (A ++ h :: body ++ ih :: section ++ C)
     = rewrite_lines name c (A ++ C).
Proof.
  intros Hh Hbody Hind _ Hsec HC.
  split; [intros line rest st; apply scan_loop_keeps_skipping|].
  rewrite !rewrite_lines_retained, !retained_excise.
  assert (HB : forallb off_column_zero (body ++ ih :: section) = true).
  { rewrite forallb_app, Hbody. cbn [forallb andb]. rewrite Hsec, andb_true_r.
    unfold off_column_zero. destruct ih as [|x t]; [reflexivity|].
    now rewrite leading_space_not_bracket. }
  replace (A ++ h :: body ++ ih :: section ++ C)
    with (A ++ h :: (body ++ ih :: section) ++ C)
    by now rewrite <- app_assoc.
  now rewrite (excise_block name A h (body ++ ih :: section) C Hh HB HC).
Qed.

(** The section [[qa]], indented, goes with the old [[dev]]. *)
Lemma indented_section_removed_witness :
  rewrite_lines "dev" Sample.creds
    (Sample.section_main ++ Sample.header_dev :: Sample.body_dev
     ++ ln "  [qa]" :: [ln "key=3"] ++ [ln "[ops]"; ln "key=4"])
  = rewrite_lines "dev" Sample.creds
      (Sample.section_main ++ [ln "[ops]"; ln "key=4"]).
Proof.
  refine (proj2 (indented_section_removed "dev" Sample.creds
            Sample.section_main Sample.header_dev Sample.body_dev
            (ln "  [qa]") [ln "key=3"] [ln "[ops]"; ln "key=4"]
            _ _ _ _ _ _)); reflexivity.
Defined.

(** The loop keeps the lines around a block of the profile. *)
Lemma retained_frame (name : string) (A : list string) (h : string)
      (B C : list string) :
  is_target name h = true ->
  existsb (is_target name) A = false ->
  forallb off_column_zero B = true ->
  opens_section C = true ->
  existsb (is_target name) C = false ->
  retained name false (A ++ h :: B ++ C) = collapse_blank_runs (A ++ C).
Proof.
  intros Hh HA HB HC HC'.
  rewrite retained_excise, (excise_block name A h B C Hh HB HC).
  rewrite excise_no_target; [reflexivity|].
  now rewrite existsb_app, HA, HC'.
Qed.

(** C1, as the program has it.  Let the lines read be [A], a header [h]
    of the profile, the body [B] of its block (lines that are no headers
    and have no ['['] in column 0) and [C], which is empty or opens with
    a line that has ['['] in column 0, where neither [A] nor [C] holds a
    header of the profile.  The text written is [A] and [C], in this
    order and with every run of blank lines reduced to its last line,
    then the separator and the new block; [h] and [B] are gone.  When [A]
    and [C] have no two blank lines in a row they are written unchanged. *)
Theorem other_sections_kept
        (name : string) (c : credentials) (content : string)
        (A : list string) (h : string) (B C : list string) :
  readlines content = A ++ h :: B ++ C ->
  is_target name h = true ->
  existsb (is_target name) A = false ->
  existsb Spec.is_header B = false ->
  forallb off_column_zero B = true ->
  opens_section C = true ->
  existsb (is_target name) C = false ->
  rewrite_text name c content
  = writelines (add_spacing (collapse_blank_runs (A ++ C))
                ++ block_lines name c)
  /\ (no_blank_pair A = true -> no_blank_pair C = true ->
      rewrite_text name c content
      = writelines (add_spacing (A ++ C) ++ block_lines name c)).
Proof.
  intros E Hh HA _ HB HC HC'.
  assert (R : rewrite_text name c content
              = writelines (add_spacing (collapse_blank_runs (A ++ C))
                            ++ block_lines name c)).
  { unfold rewrite_text. rewrite E, rewrite_lines_retained.
    now rewrite (retained_frame name A h B C). }
  split; [exact R|].
  intros NA NC. rewrite R, collapse_no_blank_pair; [reflexivity|].
  apply no_blank_pair_app; try assumption.
  now apply opens_section_next_solid.
Qed.

(** The sections [[main]] and [[qa]] around the old [[dev]]. *)
Lemma other_sections_kept_witness :
  rewrite_text "dev" Sample.creds Sample.three_sections
  = writelines (Sample.section_main ++ Sample.section_qa ++ [nl]
                ++ block_lines "dev" Sample.creds).
Proof.
  refine (proj2 (other_sections_kept "dev" Sample.creds
                   Sample.three_sections Sample.section_main
                   Sample.header_dev Sample.body_dev Sample.section_qa
                   _ _ _ _ _ _ _) _ _); reflexivity.
Defined.

(** C1 as the specification words it fails twice.  The texts below are
    three blocks in the sense of the specification, the second one the
    profile written; in neither case does the text written open with
    the first and the third block as they were.  In the first a run of
    blank lines inside [A] is shortened; in the second the header of
    [C] is indented and [C] is removed with [B]. *)
Lemma byte_identity_counterexample :
  let B := [ln "[dev]"; ln "key=old"] in
  let C := [ln "[qa]"; ln "key=3"] in
  (Spec.parse (Sample.section_gappy ++ B ++ C)
   = [Sample.section_gappy; B; C]
   /\ ~ exists tail,
       rewrite_lines "dev" Sample.creds (Sample.section_gappy ++ B ++ C)
       = Sample.section_gappy ++ C ++ tail)
  /\ (Spec.parse ([ln "[main]"; ln "key=1"] ++ B ++ Sample.section_indented)
      = [[ln "[main]"; ln "key=1"]; B; Sample.section_indented]
      /\ ~ exists tail,
          rewrite_lines "dev" Sample.creds
            ([ln "[main]"; ln "key=1"] ++ B ++ Sample.section_indented)
          = [ln "[main]"; ln "key=1"] ++ Sample.section_indented ++ tail).
Proof.
  repeat split; try reflexivity; intros [tail H]; vm_compute in H;
    discriminate H.
Qed.

(** C4, as the program has it.  The lines written always end with the
    new block, which is the last block of the text in the sense of the
    specification.  When no line is a header of the profile, what comes
    before it is the lines read with every run of blank lines reduced
    to its last line, and the separator: the lines themselves when no
    two blank lines are in a row.  For an empty text the new block is
    all that is written. *)
Theorem new_block_appended_last
        (name : string) (c : credentials) (content : string) :
  (exists before,
      rewrite_text name c content
      = (before ++ writelines (block_lines name c))%string)
  /\ (exists blocks,
         Spec.parse (rewrite_lines name c (readlines content))
         = blocks ++ [block_lines name c])
  /\ (existsb (is_target name) (readlines content) = false ->
      rewrite_lines name c (readlines content)
      = add_spacing (collapse_blank_runs (readlines content))
        ++ block_lines name c
      /\ (no_blank_pair (readlines content) = true ->
          rewrite_lines name c (readlines content)
          = add_spacing (readlines content) ++ block_lines name c))
  /\ rewrite_text name c "" = writelines (block_lines name c).
Proof.
  split; [|split; [|split]].
  - exists (writelines (add_spacing (retained name false (readlines content)))).
    unfold rewrite_text. rewrite rewrite_lines_retained.
    apply writelines_app.
  - exists (Spec.parse (add_spacing (retained name false (readlines content)))).
    rewrite rewrite_lines_retained. unfold block_lines at 1.
    rewrite parse_app_header
      by (apply is_header_target with (name := name), is_target_header).
    f_equal. apply parse_block_lines.
  - intros T. rewrite rewrite_lines_retained, retained_excise.
    rewrite excise_no_target by exact T.
    split; [reflexivity|].
    intros N. now rewrite collapse_no_blank_pair.
  - reflexivity.
Qed.

(** A file without the profile and without blank runs: the lines read,
    then the new block. *)
Lemma new_block_appended_last_witness :
  rewrite_lines "dev" Sample.creds
    (readlines (writelines Sample.section_main))
  = Sample.section_main ++ block_lines "dev" Sample.creds.
Proof.
  refine (proj2 (proj1 (proj2 (proj2
            (new_block_appended_last "dev" Sample.creds
               (writelines Sample.section_main)))) _) _); reflexivity.
Defined.

(** C4 as the specification words it fails: with no block of the
    profile in the text, the lines read are not all written back. *)
Lemma pure_append_counterexample :
  existsb (is_target "dev") Sample.section_gappy = false
  /\ ~ exists tail,
      rewrite_lines "dev" Sample.creds Sample.section_gappy
      = Sample.section_gappy ++ tail.
Proof.
  split; [reflexivity|]. intros [tail H]. vm_compute in H. discriminate H.
Qed.

(** C6, as the program has it.  The lines before the first header are
    kept: those that are not blank open the text written, in their
    order. *)
Theorem prefix_lines_kept
        (name : string) (c : credentials) (content : string) :
  exists tail,
    solid (rewrite_lines name c (readlines content))
    = solid (Spec.prefix_lines (readlines content)) ++ tail.
Proof.
  destruct (prefix_lines_split name (readlines content)) as [rest [E T]].
  exists (solid (excise name false rest) ++ solid (block_lines name c)).
  rewrite rewrite_lines_retained, retained_excise.
  rewrite E at 1. rewrite excise_app_no_target by exact T.
  unfold solid at 1. rewrite filter_app. fold (solid (block_lines name c)).
  change (filter (fun l => negb (blank l)) ?x) with (solid x).
  rewrite solid_add_spacing, solid_collapse.
  unfold solid. now rewrite filter_app, app_assoc.
Qed.

(** C6 as the specification words it fails: a line before the first
    header is written back. *)
Lemma prefix_discarded_counterexample :
  Spec.prefix_lines Sample.with_prefix = [ln "# shared with the build host"]
  /\ In (ln "# shared with the build host")
        (rewrite_lines "dev" Sample.creds Sample.with_prefix).
Proof.
  split; [reflexivity|]. simpl. now left.
Qed.

End RewriteProperties.

(* ================================================================== *)
(** ** Lines and text: reading back what was written *)

Section TextFacts.

Import Lines Store.

Lemma single_line_no_lf (s : string) : single_line s = true -> no_lf s = true.
Proof.
  unfold single_line, no_lf.
  induction s as [|c s IH]; simpl; [reflexivity|].
  intros H. apply andb_true_iff in H as [H1 H2].
  rewrite (IH H2), andb_true_r.
  apply negb_true_iff in H1. apply orb_false_iff in H1 as [H1 _].
  now rewrite H1.
Qed.

Lemma single_line_no_cr (s : string) : single_line s = true -> no_cr s = true.
Proof.
  unfold single_line, no_cr.
  induction s as [|c s IH]; simpl; [reflexivity|].
  intros H. apply andb_true_iff in H as [H1 H2].
  rewrite (IH H2), andb_true_r.
  apply negb_true_iff in H1. apply orb_false_iff in H1 as [_ H1].
  now rewrite H1.
Qed.

Lemma ln_cons (c : ascii) (b : string) : String c (ln b) = ln (String c b).
Proof. reflexivity. Qed.

Lemma endswith_ln (b : string) : endswith (ln b) LF = true.
Proof. apply endswith_last. Qed.

Lemma endswith_no_lf (o : string) :
  no_lf o = true -> endswith o LF = false.
Proof.
  unfold no_lf. induction o as [|c o IH]; simpl; [reflexivity|].
  intros H. apply andb_true_iff in H as [H1 H2].
  apply negb_true_iff in H1. destruct o; [exact H1 | now apply IH].
Qed.

(** A terminated line is split off whole. *)
Lemma split_keepends_ln (b s : string) :
  no_lf b = true ->
  split_keepends (ln b ++ s) = ln b :: split_keepends s.
Proof.
  unfold no_lf. induction b as [|c b IH]; simpl; intros H.
  - reflexivity.
  - apply andb_true_iff in H as [H1 H2]. apply negb_true_iff in H1.
    rewrite H1. fold (ln b). now rewrite (IH H2).
Qed.

(** A line without terminator runs into what follows. *)
Lemma split_keepends_open (o s : string) :
  no_lf o = true -> o <> EmptyString ->
  split_keepends (o ++ s)
  = match split_keepends s with
    | [] => [o]
    | x :: xs => (o ++ x)%string :: xs
    end.
Proof.
  unfold no_lf. induction o as [|c o IH]; simpl; intros H N; [congruence|].
  apply andb_true_iff in H as [H1 H2]. apply negb_true_iff in H1.
  rewrite H1. destruct o as [|d o].
  - simpl. now destruct (split_keepends s).
  - rewrite (IH H2) by discriminate. now destruct (split_keepends s).
Qed.

Lemma split_keepends_nil (s : string) :
  split_keepends s = [] -> s = EmptyString.
Proof.
  destruct s as [|c s]; simpl; [reflexivity|].
  destruct (Ascii.eqb c LF); [discriminate|].
  destruct (split_keepends s); discriminate.
Qed.

(** [readlines] returns a [line_list]. *)
Lemma line_list_split_keepends (s : string) : line_list (split_keepends s).
Proof.
  induction s as [|c s IH]; simpl; [constructor|].
  destruct (Ascii.eqb c LF) eqn:E.
  - change nl with (ln ""). now constructor.
  - inversion IH as [|o Ho No Eo|b rest Hb Hr Eo].
    + constructor; [|discriminate]. unfold no_lf. simpl. now rewrite E.
    + constructor; [|discriminate]. unfold no_lf in *. simpl. now rewrite E.
    + rewrite ln_cons. constructor; [|exact Hr].
      unfold no_lf in *. simpl. now rewrite E.
Qed.

Lemma line_list_retained (name : string) (lines : list string) :
  line_list lines -> forall skip, line_list (retained name skip lines).
Proof.
  induction 1 as [|o Ho No|b rest Hb Hr IH]; intros sk; simpl.
  - constructor.
  - destruct (is_target name o); [constructor|].
    destruct (negb (if sk && startswith o "[" then false else sk));
      [|constructor].
    rewrite andb_false_r. now constructor.
  - destruct (is_target name (ln b)); [apply IH|].
    destruct (negb (if sk && startswith (ln b) "[" then false else sk));
      [|apply IH].
    destruct (blank (ln b) && next_is_blank rest); [apply IH|].
    constructor; [exact Hb | apply IH].
Qed.

Lemma split_keepends_terminated (more : list string) :
  Forall terminated more -> split_keepends (writelines more) = more.
Proof.
  induction 1 as [|m more [b [E Hb]] M IH]; [reflexivity|].
  subst. simpl. fold (writelines more).
  now rewrite split_keepends_ln, IH.
Qed.

(** Writing a [line_list] followed by terminated lines, and splitting
    the text again. *)
Lemma split_keepends_writelines (lines more : list string) :
  line_list lines -> Forall terminated more ->
  split_keepends (writelines (lines ++ more)) = glue lines more.
Proof.
  intros L M. induction L as [|o Ho No|b rest Hb Hr IH].
  - now apply split_keepends_terminated.
  - cbn [app writelines fold_right glue]. fold (writelines more).
    rewrite (endswith_no_lf o Ho).
    rewrite split_keepends_open by assumption.
    now rewrite split_keepends_terminated.
  - cbn [app writelines fold_right glue]. fold (writelines (rest ++ more)).
    rewrite endswith_ln. now rewrite split_keepends_ln, IH.
Qed.

Lemma add_spacing_spacing (lines : list string) :
  add_spacing lines = lines ++ spacing lines.
Proof.
  unfold add_spacing, spacing. destruct (last_line lines) as [l|].
  - destruct (negb (blank l)); [reflexivity | now rewrite app_nil_r].
  - now rewrite app_nil_r.
Qed.

Lemma last_cons_default (rest : list string) :
  forall y x, last (y :: rest) x = last rest y.
Proof.
  induction rest as [|z rest IH]; intros y x; [reflexivity|].
  change (last (y :: z :: rest) x) with (last (z :: rest) x).
  now rewrite (IH z x), (IH z y).
Qed.

Lemma last_line_cons (x l : string) (rest : list string) :
  last_line rest = Some l -> last_line (x :: rest) = Some l.
Proof.
  destruct rest as [|y rest]; [discriminate|].
  unfold last_line. intros H. injection H as H.
  now rewrite last_cons_default, H.
Qed.

Lemma last_line_app_one (lines : list string) (x : string) :
  last_line (lines ++ [x]) = Some x.
Proof.
  induction lines as [|y lines IH]; [reflexivity|].
  now apply last_line_cons.
Qed.

Lemma next_is_blank_glue (rest : list string) (t : string) (more : list string) :
  line_list rest ->
  next_is_blank (glue rest (t :: more)) = true ->
  (rest = [] /\ blank t = true) \/ next_is_blank rest = true.
Proof.
  intros L. destruct L as [|o Ho No|b rest Hb Hr]; cbn [glue].
  - intros H. left. now split.
  - rewrite (endswith_no_lf o Ho). simpl. rewrite blank_app.
    intros H. apply andb_true_iff in H as [H _]. now right.
  - rewrite endswith_ln. simpl. intros H. now right.
Qed.

(** Joining a [line_list] to further lines makes no two blank lines
    meet, unless the last line of the one and the first of the other
    are both blank. *)
Lemma no_blank_pair_glue (lines : list string) (t : string) (more : list string) :
  line_list lines ->
  no_blank_pair lines = true ->
  no_blank_pair (t :: more) = true ->
  (forall l, last_line lines = Some l -> blank l && blank t = false) ->
  no_blank_pair (glue lines (t :: more)) = true.
Proof.
  intros L. induction L as [|o Ho No|b rest Hb Hr IH]; intros NL NT Cond.
  - exact NT.
  - cbn [glue]. rewrite (endswith_no_lf o Ho).
    cbn [no_blank_pair] in *. apply andb_true_iff in NT as [_ NT].
    rewrite NT, andb_true_r, blank_app, (Cond o eq_refl). reflexivity.
  - cbn [glue]. rewrite endswith_ln.
    cbn [no_blank_pair] in *. apply andb_true_iff in NL as [N1 N2].
    rewrite IH; try assumption.
    + rewrite andb_true_r. apply negb_true_iff.
      destruct (blank (ln b)) eqn:B; [|reflexivity]. simpl.
      destruct (next_is_blank (glue rest (t :: more))) eqn:G; [|reflexivity].
      destruct (next_is_blank_glue rest t more Hr G) as [[E Bt]|G'].
      * subst. specialize (Cond (ln b) eq_refl). rewrite B, Bt in Cond.
        discriminate.
      * rewrite G' in N1. discriminate.
    + intros l Hl. apply Cond. now apply last_line_cons.
Qed.

(** The same for the lines as a list. *)
Lemma no_blank_pair_join (lines : list string) (t : string) (more : list string) :
  no_blank_pair lines = true ->
  no_blank_pair (t :: more) = true ->
  (forall l, last_line lines = Some l -> blank l && blank t = false) ->
  no_blank_pair (lines ++ t :: more) = true.
Proof.
  induction lines as [|x rest IH]; intros NL NT Cond; [exact NT|].
  cbn [app no_blank_pair] in *. apply andb_true_iff in NL as [N1 N2].
  destruct rest as [|y rest].
  - cbn [app next_is_blank]. rewrite (Cond x eq_refl). exact NT.
  - rewrite IH; try assumption.
    + now rewrite andb_true_r.
    + intros l Hl. apply Cond. now apply last_line_cons.
Qed.

Lemma no_blank_pair_solid (lines : list string) :
  forallb (fun l => negb (blank l)) lines = true ->
  no_blank_pair lines = true.
Proof.
  induction lines as [|x rest IH]; simpl; [reflexivity|].
  intros H. apply andb_true_iff in H as [H1 H2].
  apply negb_true_iff in H1. now rewrite H1, IH.
Qed.

Lemma block_lines_shape (name : string) (c : credentials) :
  exists h more,
    block_lines name c = h :: more
    /\ blank h = false /\ no_blank_pair (h :: more) = true.
Proof.
  pose proof (blank_block_lines name c) as S.
  pose proof (no_blank_pair_solid _ S) as N.
  revert S N. unfold block_lines.
  set (h := ln (header name)). generalize h. clear h. intros h.
  match goal with |- context [h :: ?m] => generalize m end.
  intros more S N. exists h, more. split; [reflexivity|]. split; [|exact N].
  cbn [forallb] in S. apply andb_true_iff in S as [S _].
  now apply negb_true_iff in S.
Qed.

(** The separator and the new block: no two blank lines, and a blank
    first line only after a line that is not blank. *)
Lemma spacing_block_shape (name : string) (c : credentials)
      (lines : list string) :
  exists t more,
    spacing lines ++ block_lines name c = t :: more
    /\ no_blank_pair (t :: more) = true
    /\ (forall l, last_line lines = Some l -> blank l && blank t = false).
Proof.
  destruct (block_lines_shape name c) as [h [tl [E [Hh N]]]]. rewrite E.
  unfold spacing. destruct (last_line lines) as [l|].
  - destruct (blank l) eqn:B; cbn [negb app].
    + exists h, tl. split; [reflexivity|]. split; [exact N|].
      intros l' El. injection El as <-. now rewrite Hh, andb_false_r.
    + exists nl, (h :: tl). split; [reflexivity|]. split.
      * change (no_blank_pair (nl :: h :: tl))
          with (negb (blank nl && blank h) && no_blank_pair (h :: tl)).
        now rewrite Hh, andb_false_r, N.
      * intros l' El. injection El as <-. now rewrite B.
  - exists h, tl. split; [reflexivity|]. split; [exact N|]. discriminate.
Qed.

End TextFacts.

(* ================================================================== *)
(** ** Universal newlines and the characters of the lines *)

Section NewlineFacts.

Import Lines Store.

Lemma no_cr_universal_newlines (s : string) :
  no_cr (universal_newlines s) = true.
Proof.
  unfold no_cr. induction s as [|c s IH]; simpl; [reflexivity|].
  destruct (Ascii.eqb c CR) eqn:E.
  - destruct s as [|d s]; [reflexivity|].
    destruct (Ascii.eqb d LF); [exact IH|].
    cbn [forallb_str]. now rewrite IH.
  - cbn [forallb_str]. now rewrite E, IH.
Qed.

Lemma universal_newlines_no_cr (s : string) :
  no_cr s = true -> universal_newlines s = s.
Proof.
  unfold no_cr. induction s as [|c s IH]; simpl; [reflexivity|].
  intros H. apply andb_true_iff in H as [H1 H2].
  apply negb_true_iff in H1. now rewrite H1, IH.
Qed.

Lemma forallb_str_writelines (p : ascii -> bool) (lines : list string) :
  forallb_str p (writelines lines) = forallb (forallb_str p) lines.
Proof.
  induction lines as [|l lines IH]; simpl; [reflexivity|].
  fold (writelines lines). now rewrite forallb_str_app, IH.
Qed.

Lemma forallb_str_split_keepends (p : ascii -> bool) (s : string) :
  forallb_str p s = true ->
  forallb (forallb_str p) (split_keepends s) = true.
Proof.
  induction s as [|c s IH]; simpl; [reflexivity|].
  intros H. apply andb_true_iff in H as [H1 H2]. specialize (IH H2).
  destruct (Ascii.eqb c LF) eqn:E.
  - apply Ascii.eqb_eq in E. subst. simpl. now rewrite H1, IH.
  - destruct (split_keepends s) as [|l ls]; simpl in *.
    + now rewrite H1.
    + apply andb_true_iff in IH as [I1 I2]. now rewrite H1, I1, I2.
Qed.

Lemma retained_incl (name : string) (lines : list string) :
  forall skip l, In l (retained name skip lines) -> In l lines.
Proof.
  induction lines as [|x rest IH]; intros sk l; simpl; [tauto|].
  destruct (is_target name x); [intros H; right; eapply IH; exact H|].
  destruct (negb (if sk && startswith x "[" then false else sk)).
  - destruct (blank x && next_is_blank rest).
    + intros H; right; eapply IH; exact H.
    + intros [H|H]; [now left | right; eapply IH; exact H].
  - intros H; right; eapply IH; exact H.
Qed.

Lemma forallb_retained (p : string -> bool) (name : string)
      (lines : list string) (skip : bool) :
  forallb p lines = true -> forallb p (retained name skip lines) = true.
Proof.
  intros H. apply forallb_forall. intros l Hl.
  apply retained_incl in Hl. revert l Hl. now apply forallb_forall.
Qed.

(** The loop never keeps a header of the profile. *)
Lemma retained_no_target (name : string) (lines : list string) :
  forall skip, existsb (is_target name) (retained name skip lines) = false.
Proof.
  induction lines as [|x rest IH]; intros sk; simpl; [reflexivity|].
  destruct (is_target name x) eqn:T; [apply IH|].
  destruct (negb (if sk && startswith x "[" then false else sk)); [|apply IH].
  destruct (blank x && next_is_blank rest); [apply IH|].
  simpl. now rewrite T, IH.
Qed.

Lemma no_lf_app (a b : string) : no_lf (a ++ b) = no_lf a && no_lf b.
Proof. apply forallb_str_app. Qed.

Lemma no_cr_app (a b : string) : no_cr (a ++ b) = no_cr a && no_cr b.
Proof. apply forallb_str_app. Qed.

Lemma terminated_ln (b : string) : no_lf b = true -> terminated (ln b).
Proof. intros H. now exists b. Qed.

Lemma terminated_block_lines (name : string) (c : credentials) :
  single_line name = true -> single_line_credentials c = true ->
  Forall terminated (block_lines name c).
Proof.
  intros Hn Hc. unfold single_line_credentials in Hc.
  apply andb_true_iff in Hc as [Hc H3]. apply andb_true_iff in Hc as [H1 H2].
  apply single_line_no_lf in Hn, H1, H2, H3.
  unfold block_lines, header.
  repeat constructor; apply terminated_ln; rewrite ?no_lf_app;
    rewrite ?Hn, ?H1, ?H2, ?H3; reflexivity.
Qed.

Lemma no_cr_block_lines (name : string) (c : credentials) :
  single_line name = true -> single_line_credentials c = true ->
  forallb no_cr (block_lines name c) = true.
Proof.
  intros Hn Hc. unfold single_line_credentials in Hc.
  apply andb_true_iff in Hc as [Hc H3]. apply andb_true_iff in Hc as [H1 H2].
  apply single_line_no_cr in Hn, H1, H2, H3.
  unfold block_lines, header, ln. cbn [forallb].
  rewrite !no_cr_app, Hn, H1, H2, H3. reflexivity.
Qed.

Lemma terminated_spacing (lines : list string) :
  Forall terminated (spacing lines).
Proof.
  unfold spacing. destruct (last_line lines) as [l|]; [|constructor].
  destruct (negb (blank l)); repeat constructor.
  now apply (terminated_ln "").
Qed.

Lemma no_cr_spacing (lines : list string) :
  forallb no_cr (spacing lines) = true.
Proof.
  unfold spacing. destruct (last_line lines) as [l|]; [|reflexivity].
  now destruct (negb (blank l)).
Qed.

Lemma no_cr_readlines (content : string) :
  forallb no_cr (readlines content) = true.
Proof.
  apply forallb_str_split_keepends, no_cr_universal_newlines.
Qed.

(** The text written has no CR, so a later read sees it as it is. *)
Lemma no_cr_rewrite_text (name : string) (c : credentials) (content : string) :
  single_line name = true -> single_line_credentials c = true ->
  no_cr (rewrite_text name c content) = true.
Proof.
  intros Hn Hc. unfold rewrite_text, no_cr.
  rewrite forallb_str_writelines, rewrite_lines_retained, add_spacing_spacing.
  rewrite !forallb_app. fold no_cr.
  rewrite forallb_retained by apply no_cr_readlines.
  now rewrite no_cr_spacing, no_cr_block_lines.
Qed.

(** The lines a later read finds in the text written. *)
Lemma readlines_rewrite_text (name : string) (c : credentials)
      (content : string) :
  single_line name = true -> single_line_credentials c = true ->
  readlines (rewrite_text name c content)
  = glue (retained name false (readlines content))
         (spacing (retained name false (readlines content))
          ++ block_lines name c).
Proof.
  intros Hn Hc. unfold readlines at 1.
  rewrite universal_newlines_no_cr by now apply no_cr_rewrite_text.
  unfold rewrite_text.
  rewrite rewrite_lines_retained, add_spacing_spacing, <- app_assoc.
  apply split_keepends_writelines.
  - apply line_list_retained, line_list_split_keepends.
  - apply Forall_app. split;
      [apply terminated_spacing | now apply terminated_block_lines].
Qed.

End NewlineFacts.

Section BlankLines.

Import Lines Store.

(** C5.  The loop is the removal of the profile's old lines followed by
    the reduction of every run of blank lines to its last line.  The
    list handed to [writelines] has no two blank lines in a row, and
    neither have the lines of the text written, for a profile name and
    credentials that hold no line break. *)
Theorem no_consecutive_blank_lines
        (name : string) (c : credentials) (content : string) :
  new_lines (scan_loop name (readlines content) scan_init)
  = collapse_blank_runs (excise name false (readlines content))
  /\ no_blank_pair (rewrite_lines name c (readlines content)) = true
  /\ (single_line name = true -> single_line_credentials c = true ->
      no_blank_pair (readlines (rewrite_text name c content)) = true).
Proof.
  assert (K : no_blank_pair (retained name false (readlines content)) = true)
    by (rewrite retained_excise; apply no_blank_pair_collapse).
  destruct (spacing_block_shape name c (retained name false (readlines content)))
    as [t [more [E [N Cond]]]].
  split; [|split].
  - rewrite scan_loop_new_lines. simpl. apply retained_excise.
  - rewrite rewrite_lines_retained, add_spacing_spacing, <- app_assoc, E.
    now apply no_blank_pair_join.
  - intros Hn Hc. rewrite readlines_rewrite_text by assumption. rewrite E.
    apply no_blank_pair_glue; try assumption.
    apply line_list_retained, line_list_split_keepends.
Qed.

(** A file with a run of two blank lines inside a section and three at
    its end. *)
Lemma no_consecutive_blank_lines_witness :
  no_blank_pair
    (readlines (rewrite_text "dev" Sample.creds
                  (writelines (Sample.section_gappy ++ [nl; nl; nl]))))
  = true.
Proof.
  refine (proj2 (proj2 (no_consecutive_blank_lines "dev" Sample.creds
            (writelines (Sample.section_gappy ++ [nl; nl; nl])))) _ _);
    reflexivity.
Defined.

End BlankLines.

(* ================================================================== *)
(** ** Writing the same profile twice *)

Section Idempotence.

Import Lines Store.

Lemma excise_block_lines (name : string) (c : credentials) :
  excise name false (block_lines name c) = [].
Proof.
  unfold block_lines. cbn [excise]. rewrite is_target_header.
  unfold ln. cbn [append].
  rewrite !other_start_not_target by reflexivity. reflexivity.
Qed.

Lemma spacing_no_target (name : string) (lines : list string) :
  existsb (is_target name) (spacing lines) = false.
Proof.
  unfold spacing. destruct (last_line lines) as [l|]; [|reflexivity].
  destruct (negb (blank l)); [|reflexivity].
  cbn [existsb]. now rewrite (blank_not_target name nl blank_nl).
Qed.

Lemma no_blank_pair_spacing (lines : list string) :
  no_blank_pair lines = true -> no_blank_pair (lines ++ spacing lines) = true.
Proof.
  intros N. unfold spacing. destruct (last_line lines) as [l|] eqn:E.
  - destruct (blank l) eqn:B; cbn [negb]; [now rewrite app_nil_r|].
    apply no_blank_pair_join; [exact N | reflexivity|].
    intros l' E'. rewrite E in E'. injection E' as <-. now rewrite B.
  - now rewrite app_nil_r.
Qed.

Lemma spacing_spacing (lines : list string) :
  spacing (lines ++ spacing lines) = [].
Proof.
  unfold spacing at 2. destruct (last_line lines) as [l|] eqn:E.
  - destruct (blank l) eqn:B; cbn [negb].
    + rewrite app_nil_r. unfold spacing. now rewrite E, B.
    + unfold spacing. now rewrite last_line_app_one.
  - rewrite app_nil_r. unfold spacing. now rewrite E.
Qed.

(** On the lines themselves a second pass changes nothing. *)
Lemma rewrite_lines_idempotent (name : string) (c : credentials)
      (lines : list string) :
  rewrite_lines name c (rewrite_lines name c lines)
  = rewrite_lines name c lines.
Proof.
  rewrite !rewrite_lines_retained.
  set (K := retained name false lines).
  rewrite (add_spacing_spacing K).
  assert (R : retained name false ((K ++ spacing K) ++ block_lines name c)
              = K ++ spacing K).
  { rewrite retained_excise, excise_app_no_target.
    - rewrite excise_block_lines, app_nil_r.
      apply collapse_no_blank_pair, no_blank_pair_spacing.
      unfold K. rewrite retained_excise. apply no_blank_pair_collapse.
    - rewrite existsb_app, spacing_no_target. unfold K.
      now rewrite retained_no_target. }
  rewrite R, add_spacing_spacing, spacing_spacing. now rewrite app_nil_r.
Qed.

Lemma endswith_cons (x y : ascii) (t : string) :
  t <> EmptyString -> endswith (String x t) y = endswith t y.
Proof. destruct t; [congruence | reflexivity]. Qed.

Lemma universal_newlines_nil (s : string) :
  universal_newlines s = EmptyString -> s = EmptyString.
Proof.
  induction s as [|c s IH]; [reflexivity|]. simpl.
  destruct (Ascii.eqb c CR); [|discriminate].
  destruct s as [|d s]; [discriminate|].
  destruct (Ascii.eqb d LF); [|discriminate].
  intros H. apply IH in H. discriminate.
Qed.

Lemma endswith_universal_newlines (s : string) :
  s <> EmptyString -> newline_terminated s = true ->
  endswith (universal_newlines s) LF = true.
Proof.
  induction s as [|c s IH]; [congruence|]. intros _ T.
  destruct s as [|d s].
  - simpl in *. destruct (Ascii.eqb c CR) eqn:E; [reflexivity|].
    simpl. now rewrite orb_false_r in T.
  - assert (T' : newline_terminated (String d s) = true) by exact T.
    specialize (IH ltac:(discriminate) T').
    assert (N : universal_newlines (String d s) <> EmptyString).
    { intros H. apply universal_newlines_nil in H. discriminate. }
    cbn [universal_newlines]. destruct (Ascii.eqb c CR).
    + destruct (Ascii.eqb d LF); [exact IH|].
      now rewrite endswith_cons.
    + now rewrite endswith_cons.
Qed.

Lemma terminated_split_keepends (s : string) :
  endswith s LF = true -> Forall terminated (split_keepends s).
Proof.
  induction s as [|c s IH]; simpl; [constructor|]. intros E.
  destruct (Ascii.eqb c LF) eqn:C.
  - constructor; [now apply (terminated_ln "")|].
    destruct s as [|d s]; [constructor | now apply IH].
  - destruct s as [|d s]; [congruence|].
    specialize (IH E).
    destruct (split_keepends (String d s)) as [|l ls] eqn:S.
    + apply split_keepends_nil in S. discriminate.
    + inversion IH as [|? ? [b [El Hb]] Hls]. subst.
      constructor; [|exact Hls].
      rewrite ln_cons. apply terminated_ln. unfold no_lf in *. simpl.
      now rewrite C, Hb.
Qed.

Lemma terminated_readlines (content : string) :
  newline_terminated content = true -> Forall terminated (readlines content).
Proof.
  intros T. unfold readlines. destruct content as [|c s]; [constructor|].
  apply terminated_split_keepends, endswith_universal_newlines;
    [discriminate | exact T].
Qed.

Lemma terminated_retained (name : string) (lines : list string) (skip : bool) :
  Forall terminated lines -> Forall terminated (retained name skip lines).
Proof.
  intros F. apply Forall_forall. intros l Hl.
  apply retained_incl in Hl. revert l Hl. now apply Forall_forall.
Qed.

Lemma glue_terminated (lines more : list string) :
  Forall terminated lines -> glue lines more = lines ++ more.
Proof.
  induction 1 as [|l lines [b [E Hb]] F IH]; [reflexivity|].
  subst. cbn [glue app]. now rewrite endswith_ln, IH.
Qed.

(** For a text that is empty or ends with a line terminator, a later
    read finds the very lines that were written. *)
Lemma readlines_rewrite_text_terminated (name : string) (c : credentials)
      (content : string) :
  single_line name = true -> single_line_credentials c = true ->
  newline_terminated content = true ->
  readlines (rewrite_text name c content)
  = rewrite_lines name c (readlines content).
Proof.
  intros Hn Hc T. rewrite readlines_rewrite_text by assumption.
  rewrite glue_terminated
    by now apply terminated_retained, terminated_readlines.
  now rewrite rewrite_lines_retained, add_spacing_spacing, <- app_assoc.
Qed.

(** Writing the same profile twice gives the same text as writing it
    once, for a text that is empty or ends with a line terminator. *)
Lemma rewrite_text_idempotent (name : string) (c : credentials)
      (content : string) :
  single_line name = true -> single_line_credentials c = true ->
  newline_terminated content = true ->
  rewrite_text name c (rewrite_text name c content)
  = rewrite_text name c content.
Proof.
  intros Hn Hc T. unfold rewrite_text at 1.
  rewrite readlines_rewrite_text_terminated by assumption.
  now rewrite rewrite_lines_idempotent.
Qed.

(** C2 fails on a file whose last line has no terminator.  The ["\n"]
    appended as spacing only ends that line, so the first write puts no
    blank line before the new block; the second write finds the line
    terminated and puts one.  The same is seen on the file itself after
    two calls of [save_credentials_to_profile]. *)
Theorem second_write_differs_unterminated :
  rewrite_text "dev" Sample.creds Sample.unterminated
  = writelines ([ln "[main]"; ln "key=1"] ++ block_lines "dev" Sample.creds)
  /\ rewrite_text "dev" Sample.creds
       (rewrite_text "dev" Sample.creds Sample.unterminated)
     = writelines ([ln "[main]"; ln "key=1"; nl]
                   ++ block_lines "dev" Sample.creds)
  /\ rewrite_text "dev" Sample.creds
       (rewrite_text "dev" Sample.creds Sample.unterminated)
     <> rewrite_text "dev" Sample.creds Sample.unterminated
  /\ (let e := Sample.env_ok Sample.assume_prod in
      let save :=
        AccountManager.save_credentials_to_profile e "prod" Sample.creds
          (Some "dev") in
      let once :=
        fst (save (Sample.world_with (Ret AccountManager.default_config)
                     (Some Sample.unterminated))) in
      let twice := fst (save once) in
      credentials_file twice <> credentials_file once).
Proof.
  split; [reflexivity|]. split; [reflexivity|].
  split; [|cbv zeta]; intros H; vm_compute in H; discriminate H.
Qed.

End Idempotence.

(* ================================================================== *)
(** ** The write cycle and its failures *)

Section WriteCycle.

Import Lines Store Effects AccountManager.

Lemma scan_profile_found (name : string) (lines : list string) :
  profile_found (scan_loop name lines scan_init)
  = existsb (is_target name) lines.
Proof. now rewrite scan_loop_profile_found. Qed.

(** With no fault the file ends up holding [rewrite_text] of what it
    held, and the profile is reported as created or updated. *)
Lemma save_credentials_to_profile_ok
      (e : env) (account_name : string) (c : credentials)
      (profile_name : option string) (w : world) :
  mkdir_fault e = None ->
  credentials_file w = None \/ read_fault e = None ->
  write_fault e = WriteOk ->
  let profile := effective_profile account_name profile_name in
  save_credentials_to_profile e account_name c profile_name w
  = (stored_as w (rewrite_text profile c (stored w))
       [MsgProfileSaved
          (if existsb (is_target profile) (readlines (stored w))
           then "Updated" else "Created") profile],
     Ret tt).
Proof.
  intros Hm Hr Hw profile.
  unfold save_credentials_to_profile, bind, get_world. rewrite Hm, Hw.
  fold profile. unfold stored_as, rewrite_text, rewrite_lines, stored.
  destruct (credentials_file w) as [content|] eqn:F.
  - destruct Hr as [Hr|Hr]; [discriminate|]. rewrite Hr.
    rewrite <- scan_profile_found. reflexivity.
  - reflexivity.
Qed.

Lemma save_credentials_to_profile_log
      (e : env) (account_name : string) (c : credentials)
      (profile_name : option string) (w : world) :
  access_log (fst (save_credentials_to_profile e account_name c profile_name w))
  = access_log w.
Proof.
  unfold save_credentials_to_profile, bind, get_world, raise, ret.
  destruct (mkdir_fault e); [reflexivity|].
  destruct (credentials_file w); [destruct (read_fault e); [reflexivity|]|];
    destruct (write_fault e); reflexivity.
Qed.

(** C3, as the program has it.  A failure before the write (creating
    the directory, reading the file) is raised to the caller as it is,
    and nothing has changed.  A failure of the write is caught: the
    error is printed and the call returns as it does on success.  When
    [open] fails the file is as it was; when the write fails after
    [open] the file holds the part of the new text that got through. *)
Theorem store_failure_behaviour
        (e : env) (account_name : string) (c : credentials)
        (profile_name : option string) (w : world) :
  let profile := effective_profile account_name profile_name in
  let save := save_credentials_to_profile e account_name c profile_name w in
  (forall ex, mkdir_fault e = Some ex -> save = (w, Raise ex))
  /\ (forall ex content,
         mkdir_fault e = None -> credentials_file w = Some content ->
         read_fault e = Some ex -> save = (w, Raise ex))
  /\ (mkdir_fault e = None ->
      credentials_file w = None \/ read_fault e = None ->
      match write_fault e with
      | WriteOk =>
          snd save = Ret tt
          /\ credentials_file (fst save)
             = Some (rewrite_text profile c (stored w))
      | OpenFails text =>
          save = (printed w [MsgWriteError text], Ret tt)
      | WriteFails text flushed =>
          save = (stored_as w (take flushed (rewrite_text profile c (stored w)))
                    [MsgWriteError text],
                  Ret tt)
      end).
Proof.
  intros profile save. subst save. split; [|split].
  - intros ex Hm. unfold save_credentials_to_profile. now rewrite Hm.
  - intros ex content Hm Hf Hr.
    unfold save_credentials_to_profile, bind, get_world. now rewrite Hm, Hf, Hr.
  - intros Hm Hr. destruct (write_fault e) as [|text|text flushed] eqn:Hw.
    + rewrite save_credentials_to_profile_ok by assumption. now split.
    + unfold save_credentials_to_profile, bind, get_world. rewrite Hm, Hw.
      destruct (credentials_file w) as [content|] eqn:F.
      * destruct Hr as [Hr|Hr]; [discriminate|]. now rewrite Hr.
      * reflexivity.
    + unfold save_credentials_to_profile, bind, get_world. rewrite Hm, Hw.
      fold profile. unfold stored_as, rewrite_text, rewrite_lines, stored.
      destruct (credentials_file w) as [content|] eqn:F.
      * destruct Hr as [Hr|Hr]; [discriminate|]. now rewrite Hr.
      * reflexivity.
Qed.

(** The directory cannot be created; the read is refused; the [open]
    for writing is refused. *)
Lemma store_failure_behaviour_witness :
  let w := Sample.world_with (Ret (Sample.registry (JString "123456789012")))
             (Some Sample.three_sections) in
  save_credentials_to_profile
    (Sample.env_mkdir_fault (OSError "File exists")) "prod" Sample.creds None w
  = (w, Raise (OSError "File exists"))
  /\ save_credentials_to_profile
       (Sample.env_read_fault (OSError "Permission denied"))
       "prod" Sample.creds None w
     = (w, Raise (OSError "Permission denied"))
  /\ save_credentials_to_profile
       (Sample.env_write_fault (OpenFails "Permission denied"))
       "prod" Sample.creds None w
     = (printed w [MsgWriteError "Permission denied"], Ret tt).
Proof.
  cbv zeta. split; [|split].
  - refine (proj1 (store_failure_behaviour
              (Sample.env_mkdir_fault (OSError "File exists"))
              "prod" Sample.creds None
              (Sample.world_with (Ret (Sample.registry (JString "123456789012")))
                 (Some Sample.three_sections)))
              (OSError "File exists") _); reflexivity.
  - refine (proj1 (proj2 (store_failure_behaviour
              (Sample.env_read_fault (OSError "Permission denied"))
              "prod" Sample.creds None
              (Sample.world_with (Ret (Sample.registry (JString "123456789012")))
                 (Some Sample.three_sections))))
              (OSError "Permission denied") Sample.three_sections _ _ _);
      reflexivity.
  - refine (proj2 (proj2 (store_failure_behaviour
              (Sample.env_write_fault (OpenFails "Permission denied"))
              "prod" Sample.creds None
              (Sample.world_with (Ret (Sample.registry (JString "123456789012")))
                 (Some Sample.three_sections)))) _ _);
      [reflexivity | right; reflexivity].
Defined.

(** C3 as the specification words it fails.  The disk fills up after
    seven characters: the call returns as on success, nothing is raised
    to the caller, and the file holds neither the old text nor the new
    one. *)
Lemma half_written_counterexample :
  let e := Sample.env_write_fault (WriteFails "No space left on device" 7) in
  let w := Sample.world_with (Ret (Sample.registry (JString "123456789012")))
             (Some Sample.three_sections) in
  let after := save_credentials_to_profile e "prod" Sample.creds None w in
  snd after = Ret tt
  /\ credentials_file (fst after) = Some (ln "[main]")
  /\ credentials_file (fst after) <> Some Sample.three_sections
  /\ credentials_file (fst after)
     <> Some (rewrite_text "assumed-prod" Sample.creds Sample.three_sections).
Proof.
  cbv zeta. split; [reflexivity|]. split; [reflexivity|].
  split; intros H; vm_compute in H; discriminate H.
Qed.

End WriteCycle.

(* ================================================================== *)
(** ** Loading the configuration *)

Section Configuration.

Import PyJson Effects AccountManager.

(** What [load_config] makes of the file once it exists. *)
Lemma load_config_outcome (e : env) (w : world) (r : outcome json) :
  config_file w = Some r ->
  load_config e w
  = match r with
    | Ret config =>
        match validate_config config with
        | Ret _ => (w, Ret config)
        | Raise ex => (w, Raise (ConfigError (wrapped ex)))
        end
    | Raise ex => (w, Raise (ConfigError (wrapped ex)))
    end.
Proof.
  intros F.
  unfold load_config, bind, get_world, try_except, lift, ret.
  rewrite F. cbn. rewrite F.
  destruct r as [config|ex].
  - destruct (validate_config config) as [u|ex]; [reflexivity|].
    now destruct ex.
  - now destruct ex.
Qed.

(** C10.  When the configuration file exists, [load_config] returns
    the configuration it read, which then passes [validate_config], or
    it raises [ConfigError], and the world is as it was.  The error
    wraps the exception that was raised while reading, decoding or
    validating: a JSON decode error as invalid JSON, every other one,
    the [AttributeError] of an [account_id] without [isdigit] included,
    as an error loading the configuration. *)
Theorem load_config_raises_only_config_error
        (e : env) (w : world) (r : outcome json) :
  config_file w = Some r ->
  ((exists config,
       load_config e w = (w, Ret config)
       /\ r = Ret config /\ validate_config config = Ret tt)
   \/ (exists m, load_config e w = (w, Raise (ConfigError m))))
  /\ match r with
     | Ret config =>
         forall ex, validate_config config = Raise ex ->
                    load_config e w = (w, Raise (ConfigError (wrapped ex)))
     | Raise ex =>
         load_config e w = (w, Raise (ConfigError (wrapped ex)))
     end.
Proof.
  intros F. rewrite (load_config_outcome e w r F).
  destruct r as [config|ex].
  - destruct (validate_config config) as [[]|ex'] eqn:V.
    + split.
      * left. exists config. repeat split. exact V.
      * intros ex E. discriminate E.
    + split; [right; now exists (wrapped ex')|].
      intros ex E. now injection E as <-.
  - split; [right; now exists (wrapped ex) | reflexivity].
Qed.

(** An [account_id] written as a number. *)
Lemma load_config_raises_only_config_error_witness :
  load_config (Sample.env_ok ["account_manager.py"; "list"])
    (Sample.world_with (Ret (Sample.registry (JInt 123456789012))) None)
  = (Sample.world_with (Ret (Sample.registry (JInt 123456789012))) None,
     Raise (ConfigError (ErrorLoading AttributeError))).
Proof.
  refine (proj2 (load_config_raises_only_config_error
                   (Sample.env_ok ["account_manager.py"; "list"])
                   (Sample.world_with
                      (Ret (Sample.registry (JInt 123456789012))) None)
                   (Ret (Sample.registry (JInt 123456789012))) _)
                AttributeError _); reflexivity.
Defined.

Lemma validate_accounts_app (front rest : list json) :
  forall i,
    validate_accounts i front = Ret tt ->
    validate_accounts i (front ++ rest)
    = validate_accounts (i + List.length front) rest.
Proof.
  induction front as [|a front IH]; intros i H; simpl.
  - now rewrite Nat.add_0_r.
  - simpl in H.
    destruct (contains_key "name" a) as [[|]|]; try discriminate.
    destruct (contains_key "account_id" a) as [[|]|]; try discriminate;
      [|destruct (getitem a "name"); discriminate].
    destruct (getitem a "account_id") as [id|]; try discriminate.
    destruct (isdigit id) as [d|]; try discriminate.
    destruct (if negb d then Ret true
              else match len id with
                   | Ret n => Ret (negb (n =? 12)%nat)
                   | Raise ex => Raise ex
                   end) as [[|]|]; try discriminate;
      [destruct (getitem a "name"); discriminate|].
    rewrite IH by exact H. f_equal. lia.
Qed.

(** An entry that has a name and whose [account_id] is a string the
    check turns down is reported by name. *)
Lemma invalid_account_id_named
      (fields : list (string * json)) (name : json) (s : string)
      (rest : list json) (i : nat) :
  lookup "name" fields = Some name ->
  lookup "account_id" fields = Some (JString s) ->
  PyStr.isdigit s && (String.length s =? 12)%nat = false ->
  validate_accounts i (JObject fields :: rest)
  = Raise (ConfigError (InvalidAccountId name)).
Proof.
  intros Hn Ha Hs. cbn [validate_accounts contains_key getitem].
  rewrite Hn, Ha. cbn [isdigit len].
  destruct (PyStr.isdigit s); cbn [negb].
  - simpl in Hs. now rewrite Hs.
  - reflexivity.
Qed.

(** On ASCII text [str.isdigit] accepts the decimal digits only. *)
Lemma isdigit_ascii (s : string) :
  ascii_only s = true ->
  PyStr.isdigit s
  = negb (s =? "")%string && forallb_str is_ascii_digit s.
Proof.
  intros A. destruct s as [|c s]; [reflexivity|].
  unfold PyStr.isdigit. cbn [String.eqb negb andb].
  revert A. generalize (String c s). clear c s. intros s.
  unfold ascii_only. induction s as [|c s IH]; simpl; [reflexivity|].
  intros H. apply andb_true_iff in H as [H1 H2]. rewrite (IH H2). f_equal.
  unfold isdigit_char, is_ascii_digit. apply Nat.ltb_lt in H1.
  destruct (nat_of_ascii c =? 178)%nat eqn:E1;
    [apply Nat.eqb_eq in E1; lia|].
  destruct (nat_of_ascii c =? 179)%nat eqn:E2;
    [apply Nat.eqb_eq in E2; lia|].
  destruct (nat_of_ascii c =? 185)%nat eqn:E3;
    [apply Nat.eqb_eq in E3; lia|].
  now rewrite !orb_false_r.
Qed.

(** A [ConfigError] while the manager is built ends [main] before any
    command: the failure is printed and nothing else happens. *)
Lemma config_error_runs_no_command (e : env) (w w' : world) (m : config_msg) :
  load_config e w = (w', Raise (ConfigError m)) ->
  main e w = (printed w' [MsgInitFailed (ConfigError m)], Ret tt).
Proof.
  intros H. unfold main, init, bind, try_except. now rewrite H.
Qed.

(** What does hold of C7: when all entries before it pass, an entry
    that has a name and whose [account_id] is an ASCII string other
    than twelve digits makes [load_config] raise a [ConfigError] that
    names the account, and [main] runs no command. *)
Lemma invalid_ascii_account_id_fatal
      (e : env) (w : world) (others : list (string * json))
      (front rest : list json) (fields : list (string * json))
      (name : json) (s : string) :
  config_file w
  = Some (Ret (JObject (("accounts", JArray (front ++ JObject fields :: rest))
                          :: others))) ->
  validate_accounts 0 front = Ret tt ->
  lookup "name" fields = Some name ->
  lookup "account_id" fields = Some (JString s) ->
  ascii_only s = true ->
  forallb_str is_ascii_digit s && (String.length s =? 12)%nat = false ->
  exists ex,
    load_config e w = (w, Raise ex)
    /\ names_account name ex
    /\ main e w = (printed w [MsgInitFailed ex], Ret tt).
Proof.
  intros F V Hn Ha A D.
  assert (Hs : PyStr.isdigit s && (String.length s =? 12)%nat = false).
  { rewrite isdigit_ascii by exact A.
    destruct s as [|c s]; [reflexivity | exact D]. }
  pose proof (load_config_outcome e w _ F) as L. cbv beta iota in L.
  assert (E : validate_config
                (JObject (("accounts", JArray (front ++ JObject fields :: rest))
                            :: others))
              = Raise (ConfigError (InvalidAccountId name))).
  { unfold validate_config. cbn [contains_key getitem lookup String.eqb].
    cbn. rewrite validate_accounts_app by exact V.
    now apply invalid_account_id_named with (s := s). }
  rewrite E in L.
  exists (ConfigError (ErrorLoading (ConfigError (InvalidAccountId name)))).
  split; [exact L|]. split; [reflexivity|].
  now apply config_error_runs_no_command.
Qed.

(** The scenario of the specification: a five-digit account id. *)
Example short_account_id_fatal :
  main (Sample.env_ok ["account_manager.py"; "assume"; "prod"])
    (Sample.world_with (Ret (Sample.registry (JString "12345"))) None)
  = (printed
       (Sample.world_with (Ret (Sample.registry (JString "12345"))) None)
       [MsgInitFailed
          (ConfigError
             (ErrorLoading (ConfigError (InvalidAccountId (JString "prod")))))],
     Ret tt).
Proof. reflexivity. Qed.

(** C7 fails in two ways.  [str.isdigit] accepts the superscript digits,
    so twelve of them pass the check and [main] goes on to the command.
    An [account_id] that is a JSON number has no [isdigit]: the error
    raised is a [ConfigError], but its message is that of the
    [AttributeError] and does not name the account. *)
Theorem account_id_check_misses :
  (forallb_str is_ascii_digit Sample.superscript_id = false
   /\ validate_config (Sample.registry (JString Sample.superscript_id))
      = Ret tt
   /\ main (Sample.env_ok ["account_manager.py"; "list"])
        (Sample.world_with
           (Ret (Sample.registry (JString Sample.superscript_id))) None)
      = (printed
           (Sample.world_with
              (Ret (Sample.registry (JString Sample.superscript_id))) None)
           [MsgAccounts
              (JArray
                 [JObject
                    [("name", JString "prod");
                     ("account_id", JString Sample.superscript_id);
                     ("role_arn",
                      JString "arn:aws:iam::123456789012:role/Admin")]])],
         Ret tt))
  /\ (load_config (Sample.env_ok ["account_manager.py"; "list"])
        (Sample.world_with (Ret (Sample.registry (JInt 123456789012))) None)
      = (Sample.world_with (Ret (Sample.registry (JInt 123456789012))) None,
         Raise (ConfigError (ErrorLoading AttributeError)))
      /\ ~ names_account (JString "prod")
             (ConfigError (ErrorLoading AttributeError))).
Proof.
  repeat split; try reflexivity. intros H. exact H.
Qed.

End Configuration.

(* ================================================================== *)
(** ** Assuming a role *)

Section Orchestration.

Import PyJson Lines Effects AccountManager.

(** An account that has the key and a name is a dictionary, and
    [account['role_arn']] does not raise. *)
Lemma role_arn_present (account name : json) :
  contains_key "role_arn" account = Ret true ->
  getitem account "name" = Ret name ->
  exists role_arn, getitem account "role_arn" = Ret role_arn.
Proof.
  destruct account as [| | | | |items|fields]; try discriminate.
  cbn [contains_key getitem]. intros H _.
  destruct (lookup "role_arn" fields) as [v|]; [now exists v | discriminate].
Qed.

Lemma getitem_contains_key (account v : json) (key : string) :
  getitem account key = Ret v ->
  contains_key key account = Ret true /\ truthy account = true.
Proof.
  destruct account as [| | | | |items|fields]; try discriminate.
  cbn [contains_key getitem truthy].
  destruct fields as [|f fields]; [discriminate|].
  destruct (lookup key (f :: fields)); [now split | discriminate].
Qed.

Lemma log_access_audited (e : env) (account_name session : string)
      (success : bool) (error : option string) (w : world)
      (msgs : list message) :
  log_access e account_name session success error (printed w msgs)
  = (audited e w (log_entry e account_name session success error) msgs,
     Ret tt).
Proof.
  unfold log_access, audited, printed, bind, get_world, set_access_log, print.
  destruct (log_fault e) as [[text flushed]|]; cbn.
  - now rewrite app_assoc.
  - now rewrite app_nil_r.
Qed.

Lemma print_printed (w : world) (msgs : list message) (m : message) :
  print m (printed w msgs) = (printed w (msgs ++ [m]), Ret tt).
Proof. unfold print, printed. cbn. now rewrite app_assoc. Qed.

Lemma printed_nil (w : world) : printed w [] = w.
Proof. unfold printed. rewrite app_nil_r. now destruct w. Qed.

(** [assume_role] once the account is found and has a role. *)
Lemma assume_role_attempt
      (e : env) (config accounts account role_arn : json)
      (account_name : string) (w : world) :
  getitem config "accounts" = Ret accounts ->
  find_account account_name (items_of accounts) = Ret (Some account) ->
  getitem account "role_arn" = Ret role_arn ->
  let session := ("session-" ++ now_session e)%string in
  assume_role e config account_name None w
  = match sts_assume_role e role_arn session with
    | Assumed c =>
        (audited e w (log_entry e account_name session true None)
           [MsgAssuming account_name; MsgAssumed (Expiration c)],
         Ret (Some c))
    | ClientError code msg =>
        (audited e w (log_entry e account_name session false (Some msg))
           ([MsgAssuming account_name; MsgErrorAssuming code msg]
            ++ if code =? "AccessDenied" then [MsgAccessDeniedCauses] else []),
         Ret None)
    | Failed text =>
        (audited e w (log_entry e account_name session false (Some text))
           [MsgAssuming account_name; MsgUnexpected text],
         Ret None)
    end.
Proof.
  intros Ha Hf Hr session.
  destruct (getitem_contains_key account role_arn "role_arn" Hr) as [Hc Ht].
  unfold assume_role, bind, lift. rewrite Ha, Hf, Ht, Hc. cbn [negb].
  rewrite Hr. fold session.
  rewrite <- (printed_nil w) at 1. rewrite print_printed. cbn [app].
  destruct (sts_assume_role e role_arn session) as [c|code msg|text].
  - rewrite print_printed, log_access_audited. reflexivity.
  - rewrite print_printed. cbn [app].
    destruct (code =? "AccessDenied").
    + rewrite print_printed, log_access_audited. reflexivity.
    + unfold ret at 1. rewrite log_access_audited. reflexivity.
  - rewrite print_printed, log_access_audited. reflexivity.
Qed.

(** C8, as the program has it.  For an attempt that reaches the STS
    call, [log_access] is called once: it appends one entry, SUCCESS or
    FAILED, followed by a newline, or, when the append fails with an
    [IOError], leaves at the end of the log the part of the entry that
    had been flushed, nothing when the file cannot be opened, and prints
    a warning.  On success [main] then calls
    [save_credentials_to_profile] without a profile name, which stands
    for [assumed-<account_name>], and the log stays as it is; on failure
    the failure is printed and nothing else is touched. *)
Theorem assume_attempt_audited
        (e : env) (config accounts account role_arn : json)
        (prog account_name : string) (more : list string) (w : world) :
  argv e = prog :: "assume" :: account_name :: more ->
  getitem config "accounts" = Ret accounts ->
  find_account account_name (items_of accounts) = Ret (Some account) ->
  getitem account "role_arn" = Ret role_arn ->
  let session := ("session-" ++ now_session e)%string in
  match sts_assume_role e role_arn session with
  | Assumed c =>
      let logged :=
        audited e w (log_entry e account_name session true None)
          [MsgAssuming account_name; MsgAssumed (Expiration c)] in
      run_command e config w
      = save_credentials_to_profile e account_name c None logged
      /\ effective_profile account_name None
         = ("assumed-" ++ account_name)%string
      /\ access_log (fst (run_command e config w)) = access_log logged
  | ClientError code msg =>
      run_command e config w
      = (audited e w (log_entry e account_name session false (Some msg))
           ([MsgAssuming account_name; MsgErrorAssuming code msg]
            ++ if code =? "AccessDenied" then [MsgAccessDeniedCauses] else []),
         Ret tt)
  | Failed text =>
      run_command e config w
      = (audited e w (log_entry e account_name session false (Some text))
           [MsgAssuming account_name; MsgUnexpected text],
         Ret tt)
  end.
Proof.
  intros Hv Ha Hf Hr session.
  pose proof (assume_role_attempt e config accounts account role_arn
                account_name w Ha Hf Hr) as R.
  cbv zeta in R. fold session in R.
  assert (C : run_command e config w
              = bind (assume_role e config account_name None)
                  (fun credentials =>
                     match credentials with
                     | Some c =>
                         save_credentials_to_profile e account_name c None
                     | None => ret tt
                     end) w).
  { unfold run_command, arg. rewrite Hv. reflexivity. }
  rewrite C. unfold bind. rewrite R.
  destruct (sts_assume_role e role_arn session) as [c|code msg|text];
    try reflexivity.
  split; [reflexivity|]. split; [reflexivity|].
  apply save_credentials_to_profile_log.
Qed.

(** The endpoint denies access. *)
Lemma assume_attempt_audited_witness :
  let e := Sample.env_log_fault (ClientError "AccessDenied" "not authorized")
             None in
  let w := Sample.world_with
             (Ret (Sample.registry (JString "123456789012")))
             (Some Sample.three_sections) in
  run_command e (Sample.registry (JString "123456789012")) w
  = (audited e w
       (log_entry e "prod" "session-20260101-120000" false
          (Some "not authorized"))
       [MsgAssuming "prod"; MsgErrorAssuming "AccessDenied" "not authorized";
        MsgAccessDeniedCauses],
     Ret tt).
Proof.
  cbv zeta.
  refine (assume_attempt_audited
            (Sample.env_log_fault
               (ClientError "AccessDenied" "not authorized") None)
            (Sample.registry (JString "123456789012"))
            (JArray [JObject [("name", JString "prod");
                              ("account_id", JString "123456789012");
                              ("role_arn",
                               JString "arn:aws:iam::123456789012:role/Admin")]])
            (JObject [("name", JString "prod");
                      ("account_id", JString "123456789012");
                      ("role_arn",
                       JString "arn:aws:iam::123456789012:role/Admin")])
            (JString "arn:aws:iam::123456789012:role/Admin")
            "account_manager.py" "prod" []
            (Sample.world_with
               (Ret (Sample.registry (JString "123456789012")))
               (Some Sample.three_sections))
            _ _ _ _); reflexivity.
Defined.

(** C8 as the specification words it fails: the role is assumed and
    the profile is written, but the attempt leaves no line in the log.
    When the log file cannot be opened the log is as it was; when the
    device fills up after five characters the log ends in the torn
    entry, which has no newline. *)
Lemma audit_line_counterexample :
  let w := SampleMore.logged_world in
  let closed :=
    fst (main (Sample.env_log_fault (Assumed Sample.creds)
                 (Some ("Permission denied", 0))) w) in
  let torn :=
    fst (main (Sample.env_log_fault (Assumed Sample.creds)
                 (Some ("No space left on device", 5))) w) in
  credentials_file closed
  = Some (Store.rewrite_text "assumed-prod" Sample.creds Sample.three_sections)
  /\ access_log closed = access_log w
  /\ In (MsgLogWarning "Permission denied") (console closed)
  /\ credentials_file torn = credentials_file closed
  /\ access_log torn = (access_log w ++ "2026-")%string
  /\ In (MsgLogWarning "No space left on device") (console torn).
Proof.
  cbv zeta. split; [reflexivity|]. split; [reflexivity|].
  split; [vm_compute; tauto|]. split; [reflexivity|].
  split; [reflexivity|]. vm_compute. tauto.
Qed.

End Orchestration.

(* ================================================================== *)
(** ** Further properties of the rewrite *)

Section RewriteMore.

Import Lines Store Effects AccountManager.

Lemma filter_none (p : string -> bool) (lines : list string) :
  existsb p lines = false -> filter p lines = [].
Proof.
  induction lines as [|l lines IH]; simpl; [reflexivity|].
  intros H. apply orb_false_iff in H as [H1 H2]. now rewrite H1, IH.
Qed.

Lemma filter_target_block_lines (name : string) (c : credentials) :
  filter (is_target name) (block_lines name c) = [ln (header name)].
Proof.
  unfold block_lines. cbn [filter]. rewrite is_target_header.
  unfold ln. cbn [append].
  now rewrite !other_start_not_target by reflexivity.
Qed.

(** X1.  Whatever the file held, the lines written hold one header of
    the profile and no more: the first line of the new block.  Sections
    of that name that were there, indented ones and repeated ones
    included, have lost their headers. *)
Theorem profile_header_unique
        (name : string) (c : credentials) (lines : list string) :
  filter (is_target name) (rewrite_lines name c lines) = [ln (header name)].
Proof.
  rewrite rewrite_lines_retained, add_spacing_spacing, !filter_app.
  rewrite (filter_none _ _ (retained_no_target name lines false)).
  rewrite (filter_none _ _ (spacing_no_target name _)).
  apply filter_target_block_lines.
Qed.

Lemma spacing_incl (lines : list string) (l : string) :
  In l (spacing lines) -> l = nl.
Proof.
  unfold spacing. destruct (last_line lines) as [x|]; [|intros []].
  destruct (negb (blank x)); [|intros []].
  intros [H|[]]. now symmetry.
Qed.

(** X2.  No line is altered: each line written is a line that was read,
    the separator ["\n"], or one of the four lines of the new block. *)
Theorem written_lines_are_read_lines
        (name : string) (c : credentials) (lines : list string) (l : string) :
  In l (rewrite_lines name c lines) ->
  In l lines \/ l = nl \/ In l (block_lines name c).
Proof.
  rewrite rewrite_lines_retained, add_spacing_spacing.
  intros H. apply in_app_or in H as [H|H]; [|now right; right].
  apply in_app_or in H as [H|H].
  - left. now apply retained_incl in H.
  - right. left. now apply spacing_incl in H.
Qed.

Lemma written_lines_are_read_lines_witness :
  In (ln "key=1") Sample.section_main \/ ln "key=1" = nl
  \/ In (ln "key=1") (block_lines "dev" Sample.creds).
Proof.
  apply (written_lines_are_read_lines "dev" Sample.creds
           Sample.section_main (ln "key=1")).
  simpl. right. now left.
Defined.

Lemma solid_all_solid (lines : list string) :
  forallb (fun l => negb (blank l)) lines = true -> solid lines = lines.
Proof.
  unfold solid. induction lines as [|l lines IH]; simpl; [reflexivity|].
  intros H. apply andb_true_iff in H as [H1 H2]. now rewrite H1, IH.
Qed.

(** X3.  When the file has no header of the profile, no line that is not
    blank is lost or moved: the lines written that are not blank are
    those of the file, in their order, and then the new block. *)
Theorem solid_lines_survive_append
        (name : string) (c : credentials) (lines : list string) :
  existsb (is_target name) lines = false ->
  solid (rewrite_lines name c lines) = solid lines ++ block_lines name c.
Proof.
  intros T. rewrite rewrite_lines_retained, retained_excise.
  rewrite excise_no_target by exact T.
  unfold solid at 1. rewrite filter_app.
  change (filter (fun l => negb (blank l)) ?x) with (solid x).
  rewrite solid_add_spacing, solid_collapse.
  now rewrite (solid_all_solid _ (blank_block_lines name c)).
Qed.

Lemma solid_lines_survive_append_witness :
  solid (rewrite_lines "dev" Sample.creds Sample.section_gappy)
  = [ln "[main]"; ln "key=1"; ln "key=2"] ++ block_lines "dev" Sample.creds.
Proof.
  apply (solid_lines_survive_append "dev" Sample.creds Sample.section_gappy).
  reflexivity.
Defined.

Lemma writelines_split_keepends (s : string) :
  writelines (split_keepends s) = s.
Proof.
  induction s as [|ch s IH]; [reflexivity|]. cbn [split_keepends].
  destruct (Ascii.eqb ch LF) eqn:E.
  - apply Ascii.eqb_eq in E. subst. cbn. fold (writelines (split_keepends s)).
    now rewrite IH.
  - destruct (split_keepends s) as [|l ls] eqn:S.
    + apply split_keepends_nil in S. now subst.
    + cbn in *. fold (writelines ls) in *. now rewrite IH.
Qed.

(** X4.  For a file without CR, without a header of the profile and
    without two blank lines in a row, the text written is the text that
    was there, byte for byte, followed by the separator, if one is due,
    and the new block. *)
Theorem file_content_is_prefix
        (name : string) (c : credentials) (content : string) :
  no_cr content = true ->
  existsb (is_target name) (readlines content) = false ->
  no_blank_pair (readlines content) = true ->
  rewrite_text name c content
  = (content ++ writelines (spacing (readlines content))
     ++ writelines (block_lines name c))%string.
Proof.
  intros Hcr T N. unfold rewrite_text.
  rewrite rewrite_lines_retained, retained_excise.
  rewrite excise_no_target by exact T.
  rewrite collapse_no_blank_pair by exact N.
  rewrite add_spacing_spacing, <- app_assoc, !writelines_app.
  unfold readlines at 1. rewrite universal_newlines_no_cr by exact Hcr.
  now rewrite writelines_split_keepends.
Qed.

Lemma file_content_is_prefix_witness :
  rewrite_text "dev" Sample.creds SampleMore.tidy
  = (SampleMore.tidy ++ writelines [nl]
     ++ writelines (block_lines "dev" Sample.creds))%string.
Proof.
  apply (file_content_is_prefix "dev" Sample.creds SampleMore.tidy);
    reflexivity.
Defined.

Lemma endswith_app (a b : string) (ch : ascii) :
  b <> EmptyString -> endswith (a ++ b) ch = endswith b ch.
Proof.
  intros N. induction a as [|x a IH]; [reflexivity|].
  cbn [append]. rewrite endswith_cons; [exact IH|].
  destruct a; [exact N | discriminate].
Qed.

(** The text written ends with a line feed. *)
Lemma newline_terminated_rewrite_text
      (name : string) (c : credentials) (content : string) :
  newline_terminated (rewrite_text name c content) = true.
Proof.
  unfold rewrite_text. rewrite rewrite_lines_retained, writelines_app.
  set (before := writelines _).
  assert (E : endswith (before ++ writelines (block_lines name c)) LF = true).
  { unfold block_lines. cbn [writelines fold_right].
    rewrite append_empty_r, <- !append_assoc. unfold ln at 4.
    rewrite <- append_assoc. apply endswith_last. }
  unfold newline_terminated.
  destruct (before ++ writelines (block_lines name c))%string;
    [reflexivity | now rewrite E].
Qed.

(** X5.  From the first write on the file is stable: a third write of
    the same profile gives the text of the second, whatever the file
    held at first. *)
Theorem third_write_same_as_second
        (name : string) (c : credentials) (content : string) :
  single_line name = true -> single_line_credentials c = true ->
  rewrite_text name c (rewrite_text name c (rewrite_text name c content))
  = rewrite_text name c (rewrite_text name c content).
Proof.
  intros Hn Hc. apply rewrite_text_idempotent; try assumption.
  apply newline_terminated_rewrite_text.
Qed.

Lemma third_write_same_as_second_witness :
  rewrite_text "dev" Sample.creds
    (rewrite_text "dev" Sample.creds
       (rewrite_text "dev" Sample.creds Sample.unterminated))
  = rewrite_text "dev" Sample.creds
      (rewrite_text "dev" Sample.creds Sample.unterminated).
Proof.
  apply (third_write_same_as_second "dev" Sample.creds Sample.unterminated);
    reflexivity.
Defined.

Lemma retained_length (name : string) (lines : list string) :
  forall skip, List.length (retained name skip lines) <= List.length lines.
Proof.
  induction lines as [|l lines IH]; intros sk; simpl; [lia|].
  destruct (is_target name l); [specialize (IH true); lia|].
  destruct (negb (if sk && startswith l "[" then false else sk)).
  - destruct (blank l && next_is_blank lines); simpl;
      match goal with |- context [retained name ?s lines] =>
        specialize (IH s) end; lia.
  - match goal with |- context [retained name ?s lines] =>
      specialize (IH s) end; lia.
Qed.

(** X6.  One write adds at most five lines to the file: the separator
    and the four lines of the block. *)
Theorem rewrite_adds_at_most_five_lines
        (name : string) (c : credentials) (lines : list string) :
  List.length (rewrite_lines name c lines) <= List.length lines + 5.
Proof.
  rewrite rewrite_lines_retained, add_spacing_spacing, !length_app.
  pose proof (retained_length name lines false) as L.
  assert (S : List.length (spacing (retained name false lines)) <= 1).
  { unfold spacing. destruct (last_line _) as [x|]; [|simpl; lia].
    destruct (negb (blank x)); simpl; lia. }
  unfold block_lines. simpl. lia.
Qed.

(** X7.  With no fault, two calls in a row for the same profile leave
    the same file, provided the file was empty, absent or ended with a
    line terminator before the first. *)
Theorem save_twice_same_file
        (e : env) (account_name : string) (c : credentials)
        (profile_name : option string) (w : world) :
  mkdir_fault e = None -> read_fault e = None -> write_fault e = WriteOk ->
  single_line (effective_profile account_name profile_name) = true ->
  single_line_credentials c = true ->
  newline_terminated (stored w) = true ->
  let save := save_credentials_to_profile e account_name c profile_name in
  credentials_file (fst (save (fst (save w))))
  = credentials_file (fst (save w)).
Proof.
  intros Hm Hr Hw Hn Hc T save. subst save.
  rewrite (save_credentials_to_profile_ok e account_name c profile_name w)
    by (try assumption; now right).
  cbv zeta. cbn [fst].
  rewrite save_credentials_to_profile_ok by (try assumption; now right).
  cbv zeta. cbn [fst]. unfold stored_as. cbn [credentials_file stored].
  f_equal. now apply rewrite_text_idempotent.
Qed.

Lemma save_twice_same_file_witness :
  let save :=
    save_credentials_to_profile (Sample.env_ok Sample.assume_prod)
      "prod" Sample.creds None in
  let w := Sample.world_with (Ret default_config)
             (Some Sample.three_sections) in
  credentials_file (fst (save (fst (save w))))
  = credentials_file (fst (save w)).
Proof.
  cbv zeta.
  apply (save_twice_same_file (Sample.env_ok Sample.assume_prod)
           "prod" Sample.creds None
           (Sample.world_with (Ret default_config)
              (Some Sample.three_sections))); reflexivity.
Defined.

(** X8.  With no fault the call reports the profile as updated exactly
    when some line of the file, trimmed, is its header, and as created
    otherwise; the log and the registry are as they were. *)
Theorem update_reported_iff_header_present
        (e : env) (account_name : string) (c : credentials)
        (profile_name : option string) (w : world) :
  mkdir_fault e = None -> read_fault e = None -> write_fault e = WriteOk ->
  let profile := effective_profile account_name profile_name in
  let after :=
    fst (save_credentials_to_profile e account_name c profile_name w) in
  console after
  = console w
    ++ [MsgProfileSaved
          (if existsb (is_target profile) (readlines (stored w))
           then "Updated" else "Created") profile]
  /\ access_log after = access_log w
  /\ config_file after = config_file w.
Proof.
  intros Hm Hr Hw profile after. subst after.
  rewrite save_credentials_to_profile_ok by (try assumption; now right).
  cbv zeta. now repeat split.
Qed.

Lemma update_reported_iff_header_present_witness :
  console
    (fst (save_credentials_to_profile (Sample.env_ok Sample.assume_prod)
            "prod" Sample.creds (Some "dev")
            (Sample.world_with (Ret default_config)
               (Some (writelines [ln "[main]"; ln "key=1"; ln "  [dev]  "])))))
  = [MsgProfileSaved "Updated" "dev"].
Proof.
  refine (proj1 (update_reported_iff_header_present
                   (Sample.env_ok Sample.assume_prod)
                   "prod" Sample.creds (Some "dev")
                   (Sample.world_with (Ret default_config)
                      (Some (writelines
                               [ln "[main]"; ln "key=1"; ln "  [dev]  "])))
                   _ _ _)); reflexivity.
Defined.

End RewriteMore.

(* ================================================================== *)
(** ** What the methods leave alone *)

Section FrameRules.

Import Frames AccountManager.

Variable R : world -> world -> Prop.
Hypothesis R_refl : forall w, R w w.
Hypothesis R_trans : forall a b c, R a b -> R b c -> R a c.

Lemma keeps_ret (A : Type) (a : A) : keeps R (ret a).
Proof. intros w. apply R_refl. Qed.

Lemma keeps_raise (A : Type) (ex : exn) : keeps R (@raise A ex).
Proof. intros w. apply R_refl. Qed.

Lemma keeps_lift (A : Type) (o : outcome A) : keeps R (lift o).
Proof. intros w. apply R_refl. Qed.

Lemma keeps_get_world : keeps R get_world.
Proof. intros w. apply R_refl. Qed.

Lemma keeps_bind (A B : Type) (m : M A) (k : A -> M B) :
  keeps R m -> (forall a, keeps R (k a)) -> keeps R (bind m k).
Proof.
  intros Hm Hk w. unfold bind. specialize (Hm w).
  destruct (m w) as [w' [a|ex]]; cbn [fst] in *; [|exact Hm].
  exact (R_trans _ _ _ Hm (Hk a w')).
Qed.

Lemma keeps_try_except (A : Type) (m : M A) (h : exn -> M A) :
  keeps R m -> (forall ex, keeps R (h ex)) -> keeps R (try_except m h).
Proof.
  intros Hm Hh w. unfold try_except. specialize (Hm w).
  destruct (m w) as [w' [a|ex]]; cbn [fst] in *; [exact Hm|].
  exact (R_trans _ _ _ Hm (Hh ex w')).
Qed.

Hypothesis R_print : forall m, keeps R (print m).

(** One step of a proof that a method keeps [R]. *)
Ltac keeps_step :=
  first
    [ apply keeps_ret | apply keeps_raise | apply keeps_lift
    | apply keeps_get_world | apply R_print
    | apply keeps_bind; [|intros ?]
    | apply keeps_try_except; [|intros ?]
    | match goal with
      | |- keeps _ (match ?x with _ => _ end) => destruct x
      | |- keeps _ (if ?b then _ else _) => destruct b
      end ].

(** [main] keeps what [load_config] and the commands keep. *)
Lemma keeps_main_with (e : env) :
  keeps R (load_config e) -> (forall config, keeps R (run_command e config)) ->
  keeps R (main e).
Proof.
  intros L C. unfold main, init, main_handler.
  repeat first [apply L | apply C | keeps_step].
Qed.

Lemma keeps_list_accounts (config : json) : keeps R (list_accounts config).
Proof. unfold list_accounts. repeat keeps_step. Qed.

Lemma keeps_get_current_identity (e : env) : keeps R (get_current_identity e).
Proof. unfold get_current_identity. repeat keeps_step. Qed.

Section Log.

Hypothesis R_log :
  forall w more, R w (fst (set_access_log (access_log w ++ more) w)).

Lemma keeps_log_access (e : env) (account_name session : string)
      (success : bool) (error : option string) :
  keeps R (log_access e account_name session success error).
Proof.
  unfold log_access. destruct (log_fault e) as [[text flushed]|].
  - intros w. unfold bind, get_world. cbn [fst].
    exact (R_trans _ _ _ (R_log w _) (R_print _ _)).
  - intros w. unfold bind, get_world. apply R_log.
Qed.

Lemma keeps_assume_role (e : env) (config : json) (account_name : string)
      (session_name : option string) :
  keeps R (assume_role e config account_name session_name).
Proof.
  unfold assume_role. cbv zeta.
  repeat first [apply keeps_log_access | keeps_step].
Qed.

Section Credentials.

Hypothesis R_credentials : forall c, keeps R (set_credentials_file c).

Lemma keeps_save_credentials_to_profile
      (e : env) (account_name : string) (c : credentials)
      (profile_name : option string) :
  keeps R (save_credentials_to_profile e account_name c profile_name).
Proof.
  unfold save_credentials_to_profile. cbv zeta.
  repeat first [apply R_credentials | keeps_step].
Qed.

Lemma keeps_run_command (e : env) (config : json) :
  keeps R (run_command e config).
Proof.
  unfold run_command. cbv zeta.
  repeat first
    [ apply keeps_list_accounts | apply keeps_get_current_identity
    | apply keeps_assume_role | apply keeps_save_credentials_to_profile
    | keeps_step ].
Qed.

(** [main] keeps what [load_config] keeps. *)
Lemma keeps_main_after_load (e : env) :
  keeps R (load_config e) -> keeps R (main e).
Proof.
  intros L. apply keeps_main_with; [exact L | apply keeps_run_command].
Qed.

Hypothesis R_config : forall c, keeps R (set_config_file c).

Lemma keeps_load_config (e : env) : keeps R (load_config e).
Proof.
  unfold load_config, create_default_config, load_config_handler.
  repeat first [apply R_config | keeps_step].
Qed.

Lemma keeps_main (e : env) : keeps R (main e).
Proof. apply keeps_main_after_load, keeps_load_config. Qed.

End Credentials.

End Log.

End FrameRules.

(* ================================================================== *)
(** ** The registries that pass validation *)

Section RegistryFacts.

Import PyJson Registry Effects AccountManager.

Lemma validate_accounts_step_ok (account : json) (rest : list json) (i : nat) :
  account_ok account = true ->
  validate_accounts i (account :: rest) = validate_accounts (S i) rest.
Proof.
  destruct account as [| | | | | |fields]; try discriminate.
  unfold account_ok. cbn [validate_accounts contains_key getitem].
  destruct (lookup "name" fields) as [name|]; [|discriminate].
  destruct (lookup "account_id" fields) as [[| | | |s| |]|]; try discriminate.
  intros H. apply andb_true_iff in H as [H1 H2].
  cbn [isdigit len]. rewrite H1. cbn [negb]. now rewrite H2.
Qed.

Lemma validate_accounts_step_bad (account : json) (rest : list json) (i : nat) :
  account_ok account = false ->
  exists ex, validate_accounts i (account :: rest) = Raise ex.
Proof.
  destruct account as [| |n|bits|s|items|fields];
    cbn [validate_accounts contains_key getitem]; intros H;
    try (eexists; reflexivity).
  - destruct (PyStr.contains "name" s); [|eexists; reflexivity].
    destruct (PyStr.contains "account_id" s); eexists; reflexivity.
  - destruct (existsb (eq_str "name") items); [|eexists; reflexivity].
    destruct (existsb (eq_str "account_id") items); eexists; reflexivity.
  - unfold account_ok in H.
    destruct (lookup "name" fields) as [name|]; [|eexists; reflexivity].
    destruct (lookup "account_id" fields) as [id|]; [|eexists; reflexivity].
    destruct id as [| | | |s| |]; cbn [isdigit len];
      try (eexists; reflexivity).
    destruct (PyStr.isdigit s); cbn [negb]; [|eexists; reflexivity].
    simpl in H. rewrite H. eexists; reflexivity.
Qed.

Lemma validate_accounts_ok (accounts : list json) :
  forall i,
    validate_accounts i accounts = Ret tt
    <-> forallb account_ok accounts = true.
Proof.
  induction accounts as [|a accounts IH]; intros i; [now split|].
  cbn [forallb]. destruct (account_ok a) eqn:A.
  - rewrite validate_accounts_step_ok by exact A. apply IH.
  - destruct (validate_accounts_step_bad a accounts i A) as [ex E].
    rewrite E. split; discriminate.
Qed.

Lemma validate_config_ok (config : json) :
  validate_config config = Ret tt -> config_ok config = true.
Proof.
  unfold validate_config, config_ok.
  destruct config as [| |n|bits|s|items|fields];
    cbn [contains_key getitem]; try discriminate.
  - destruct (PyStr.contains "accounts" s); discriminate.
  - destruct (existsb (eq_str "accounts") items); discriminate.
  - destruct (lookup "accounts" fields) as [accounts|]; [|discriminate].
    destruct accounts as [| | | | |items|]; cbn [is_list negb items_of];
      try discriminate.
    apply validate_accounts_ok.
Qed.

Lemma config_ok_validates (config : json) :
  config_ok config = true -> validate_config config = Ret tt.
Proof.
  unfold validate_config, config_ok.
  destruct config as [| | | | | |fields]; try discriminate.
  cbn [contains_key getitem].
  destruct (lookup "accounts" fields) as [[| | | | |items|]|];
    try discriminate.
  cbn [is_list negb items_of]. apply validate_accounts_ok.
Qed.

(** X9.  [validate_config] returns exactly for the registries that are
    a dictionary whose [accounts] is a list of dictionaries, each with a
    [name] and with an [account_id] that is a string of twelve
    characters [str.isdigit] accepts; for every other decoded JSON value
    it raises. *)
Theorem validate_config_accepts_exactly (config : json) :
  (validate_config config = Ret tt <-> config_ok config = true)
  /\ (config_ok config = false -> exists ex, validate_config config = Raise ex).
Proof.
  split; [split; [apply validate_config_ok | apply config_ok_validates]|].
  intros H. destruct (validate_config config) as [[]|ex] eqn:V.
  - apply validate_config_ok in V. congruence.
  - now exists ex.
Qed.

(** A list that holds the string ["accounts"] is no registry. *)
Lemma validate_config_accepts_exactly_witness :
  exists ex, validate_config (JArray [JString "accounts"]) = Raise ex.
Proof.
  refine (proj2 (validate_config_accepts_exactly
                   (JArray [JString "accounts"])) _).
  reflexivity.
Defined.

Lemma validate_accounts_front (front rest : list json) (i : nat) :
  forallb account_ok front = true ->
  validate_accounts i (front ++ rest)
  = validate_accounts (i + List.length front) rest.
Proof.
  intros H. apply validate_accounts_app. now apply validate_accounts_ok.
Qed.

(** X10.  Validation stops at the first entry that is not in order and
    reports that one: an entry that is a dictionary without [name] is
    reported by its index in the list, one with a [name] but without
    [account_id] by its name; the entries after it are not looked at. *)
Theorem first_bad_entry_reported
        (front rest : list json) (fields : list (string * json)) :
  forallb account_ok front = true ->
  (lookup "name" fields = None ->
   validate_accounts 0 (front ++ JObject fields :: rest)
   = Raise (ConfigError (MissingName (List.length front))))
  /\ (forall name,
         lookup "name" fields = Some name ->
         lookup "account_id" fields = None ->
         validate_accounts 0 (front ++ JObject fields :: rest)
         = Raise (ConfigError (MissingAccountId name))).
Proof.
  intros F. split.
  - intros N. rewrite validate_accounts_front by exact F.
    cbn [validate_accounts contains_key]. now rewrite N.
  - intros name N A. rewrite validate_accounts_front by exact F.
    cbn [validate_accounts contains_key getitem]. now rewrite N, A.
Qed.

Lemma first_bad_entry_reported_witness :
  validate_accounts 0
    (SampleMore.twins ++ JObject [("account_id", JString "333333333333")]
       :: [JNull])
  = Raise (ConfigError (MissingName 2)).
Proof.
  refine (proj1 (first_bad_entry_reported SampleMore.twins [JNull]
                   [("account_id", JString "333333333333")] _) _);
    reflexivity.
Defined.

End RegistryFacts.

(* ================================================================== *)
(** ** The program as a whole *)

Section ProgramFacts.

Import PyJson Registry Frames Lines Effects AccountManager.

Lemma print_one (m : message) (w : world) :
  print m w = (printed w [m], Ret tt).
Proof. reflexivity. Qed.

Lemma same_credentials_refl (w : world) : same_credentials w w.
Proof. reflexivity. Qed.

Lemma same_credentials_trans (a b c : world) :
  same_credentials a b -> same_credentials b c -> same_credentials a c.
Proof. unfold same_credentials. congruence. Qed.

Lemma same_files_refl (w : world) : same_files w w.
Proof. now repeat split. Qed.

Lemma same_files_trans (a b c : world) :
  same_files a b -> same_files b c -> same_files a c.
Proof.
  unfold same_files. intros [H1 [H2 H3]] [K1 [K2 K3]].
  repeat split; congruence.
Qed.

Lemma log_extended_refl (w : world) : log_extended w w.
Proof. exists EmptyString. now rewrite append_empty_r. Qed.

Lemma log_extended_trans (a b c : world) :
  log_extended a b -> log_extended b c -> log_extended a c.
Proof.
  intros [x Hx] [y Hy]. exists (x ++ y)%string.
  now rewrite Hy, Hx, append_assoc.
Qed.

(** X11.  The log is append-only: whatever the command, the arguments,
    the answers of STS and the faults, the log after [main] is the log
    before it with, possibly, more text at its end. *)
Theorem access_log_append_only (e : env) (w : world) :
  exists more, access_log (fst (main e w)) = (access_log w ++ more)%string.
Proof.
  apply (keeps_main log_extended log_extended_refl log_extended_trans).
  - intros m w0. exists EmptyString. cbn. now rewrite append_empty_r.
  - intros w0 more. now exists more.
  - intros c w0. exists EmptyString. cbn. now rewrite append_empty_r.
  - intros c w0. exists EmptyString. cbn. now rewrite append_empty_r.
Qed.

Lemma config_kept_load_config (e : env) : keeps config_kept (load_config e).
Proof.
  intros w N. destruct (config_file w) as [r|] eqn:F; [|congruence].
  rewrite (load_config_outcome e w r F).
  destruct r as [config|ex]; [destruct (validate_config config)|];
    exact F.
Qed.

Lemma config_kept_trans (a b c : world) :
  config_kept a b -> config_kept b c -> config_kept a c.
Proof.
  unfold config_kept. intros H1 H2 N.
  rewrite <- (H1 N). apply H2. now rewrite (H1 N).
Qed.

(** X12.  A registry file that exists is never written: after [main] it
    holds what it held, valid or not. *)
Theorem existing_config_never_written
        (e : env) (w : world) (r : outcome json) :
  config_file w = Some r -> config_file (fst (main e w)) = Some r.
Proof.
  intros F. rewrite <- F.
  assert (K : keeps config_kept (main e)).
  { apply keeps_main_after_load.
    - intros w0 N. reflexivity.
    - exact config_kept_trans.
    - intros m w0 N. reflexivity.
    - intros w0 more N. reflexivity.
    - intros c w0 N. reflexivity.
    - apply config_kept_load_config. }
  apply K. congruence.
Qed.

Lemma existing_config_never_written_witness :
  config_file
    (fst (main (Sample.env_ok Sample.assume_prod)
            (Sample.world_with (Raise (JSONDecodeError "Expecting value"))
               None)))
  = Some (Raise (JSONDecodeError "Expecting value")).
Proof.
  apply (existing_config_never_written (Sample.env_ok Sample.assume_prod)
           (Sample.world_with (Raise (JSONDecodeError "Expecting value")) None)
           (Raise (JSONDecodeError "Expecting value"))).
  reflexivity.
Defined.

End ProgramFacts.

(* ================================================================== *)
(** ** The commands *)

Section Commands.

Import PyJson Registry Frames Lines Effects AccountManager.

Lemma same_files_print (m : message) : keeps same_files (print m).
Proof. intros w. now repeat split. Qed.

(** X13.  Only [assume] can change a file: with no command, with
    [list], [whoami] or a command that is not known, and with [assume]
    without an account, the registry, the credentials file and the log
    are after the command what they were before. *)
Theorem other_commands_change_no_file (e : env) (config : json) (w : world) :
  (List.length (argv e) <? 3)%nat = true \/ nth 1 (argv e) "" <> "assume" ->
  same_files w (fst (run_command e config w)).
Proof.
  intros H. unfold run_command, arg.
  destruct (List.length (argv e) <? 2)%nat; [apply same_files_print|].
  destruct (nth 1 (argv e) "" =? "list") eqn:L.
  - apply (keeps_list_accounts same_files same_files_refl same_files_trans
             same_files_print).
  - destruct (nth 1 (argv e) "" =? "assume") eqn:A.
    + destruct H as [H|H]; [rewrite H; apply same_files_print|].
      apply String.eqb_eq in A. contradiction.
    + destruct (nth 1 (argv e) "" =? "whoami"); [|apply same_files_print].
      apply (keeps_get_current_identity same_files same_files_print).
Qed.

Lemma other_commands_change_no_file_witness :
  same_files
    (Sample.world_with (Ret default_config) (Some Sample.three_sections))
    (fst (run_command (Sample.env_ok ["account_manager.py"; "remove"; "dev"])
            default_config
            (Sample.world_with (Ret default_config)
               (Some Sample.three_sections)))).
Proof.
  apply (other_commands_change_no_file
           (Sample.env_ok ["account_manager.py"; "remove"; "dev"])
           default_config
           (Sample.world_with (Ret default_config)
              (Some Sample.three_sections))).
  right. discriminate.
Defined.

(** [assume_role] returns credentials only if STS gave them. *)
Lemma assume_role_some
      (e : env) (config : json) (account_name : string)
      (session_name : option string) (w w' : world) (c : credentials) :
  assume_role e config account_name session_name w = (w', Ret (Some c)) ->
  exists role_arn session, sts_assume_role e role_arn session = Assumed c.
Proof.
  unfold assume_role, bind, lift, ret. cbv zeta. intros H.
  repeat match type of H with
         | context [match ?x with _ => _ end] => destruct x eqn:?
         | context [if ?b then _ else _] => destruct b eqn:?
         end;
    try discriminate;
    match goal with
    | E : sts_assume_role e ?a ?s = Assumed ?c0 |- _ =>
        exists a, s; rewrite E; f_equal; congruence
    end.
Qed.

(** X14.  The credentials file changes only when STS grants the role:
    if STS grants nothing, the file after [main] is the file before it,
    whatever the command. *)
Theorem credentials_kept_unless_assumed (e : env) (w : world) :
  (forall role_arn session c, sts_assume_role e role_arn session <> Assumed c) ->
  credentials_file (fst (main e w)) = credentials_file w.
Proof.
  intros Never.
  apply (keeps_main_with same_credentials same_credentials_refl
           same_credentials_trans).
  - intros m w0. reflexivity.
  - apply keeps_load_config; try (intros; intros ?; reflexivity).
    + exact same_credentials_refl.
    + exact same_credentials_trans.
  - intros config w0. unfold run_command.
    assert (P : forall m, keeps same_credentials (print m))
      by (intros m w1; reflexivity).
    destruct (List.length (argv e) <? 2)%nat; [apply P|].
    destruct (arg e 1 =? "list");
      [apply (keeps_list_accounts _ same_credentials_refl
                same_credentials_trans P)|].
    destruct (arg e 1 =? "assume").
    + destruct (List.length (argv e) <? 3)%nat; [apply P|].
      unfold bind.
      pose proof (keeps_assume_role same_credentials same_credentials_refl
                    same_credentials_trans P
                    (fun w1 more => eq_refl) e config (arg e 2) None w0) as K.
      destruct (assume_role e config (arg e 2) None w0)
        as [w1 [[c|]|ex]] eqn:E; cbn [fst] in *; try exact K.
      destruct (assume_role_some _ _ _ _ _ _ _ E) as [a [s F]].
      now apply Never in F.
    + destruct (arg e 1 =? "whoami"); [|apply P].
      apply (keeps_get_current_identity _ P).
Qed.

Lemma credentials_kept_unless_assumed_witness :
  credentials_file
    (fst (main (Sample.env_log_fault (ClientError "AccessDenied" "no") None)
            (Sample.world_with (Ret default_config)
               (Some Sample.three_sections))))
  = Some Sample.three_sections.
Proof.
  apply (credentials_kept_unless_assumed
           (Sample.env_log_fault (ClientError "AccessDenied" "no") None)
           (Sample.world_with (Ret default_config)
              (Some Sample.three_sections))).
  intros a s c. discriminate.
Defined.

End Commands.

(* ================================================================== *)
(** ** Looking an account up *)

Section Accounts.

Import PyJson Registry Frames Lines Effects AccountManager.

Lemma config_ok_accounts (config : json) :
  config_ok config = true ->
  exists items,
    getitem config "accounts" = Ret (JArray items)
    /\ forallb account_ok items = true.
Proof.
  destruct config as [| | | | | |fields]; try discriminate.
  unfold config_ok. cbn [getitem].
  destruct (lookup "accounts" fields) as [[| | | | |items|]|];
    try discriminate.
  intros H. now exists items.
Qed.

Lemma account_ok_name (account : json) :
  account_ok account = true ->
  exists fields name,
    account = JObject fields /\ lookup "name" fields = Some name.
Proof.
  destruct account as [| | | | | |fields]; try discriminate.
  unfold account_ok.
  destruct (lookup "name" fields) as [name|] eqn:N; [|discriminate].
  intros _. now exists fields, name.
Qed.

Lemma find_account_front (account_name : string) (front rest : list json) :
  forallb account_ok front = true ->
  existsb (named account_name) front = false ->
  find_account account_name (front ++ rest) = find_account account_name rest.
Proof.
  induction front as [|a front IH]; [reflexivity|]. cbn [forallb existsb app].
  intros O N. apply andb_true_iff in O as [O1 O2].
  apply orb_false_iff in N as [N1 N2].
  destruct (account_ok_name a O1) as [fields [name [E G]]]. subst a.
  cbn [find_account getitem]. rewrite G.
  unfold named in N1. rewrite G in N1. rewrite N1. now apply IH.
Qed.

Lemma find_account_hit
      (account_name : string) (front rest : list json) (account : json) :
  forallb account_ok front = true ->
  existsb (named account_name) front = false ->
  named account_name account = true ->
  find_account account_name (front ++ account :: rest) = Ret (Some account).
Proof.
  intros O N A. rewrite find_account_front by assumption.
  destruct account as [| | | | | |fields]; try discriminate.
  unfold named in A. cbn [find_account getitem].
  destruct (lookup "name" fields) as [name|]; [|discriminate].
  now rewrite A.
Qed.

(** X15.  The account used is the first entry of the list whose name is
    the one asked for; entries of the same name further on are not
    seen.  When no entry has the name, none is found. *)
Theorem find_account_first_match
        (account_name : string) (front rest : list json) (account : json) :
  forallb account_ok front = true ->
  existsb (named account_name) front = false ->
  (named account_name account = true ->
   find_account account_name (front ++ account :: rest) = Ret (Some account))
  /\ find_account account_name front = Ret None.
Proof.
  intros O N. split; [now apply find_account_hit|].
  rewrite <- (app_nil_r front). now rewrite find_account_front.
Qed.

Lemma find_account_first_match_witness :
  find_account "prod" SampleMore.twins
  = Ret (Some (JObject [ ("name", JString "prod");
                         ("account_id", JString "111111111111") ])).
Proof.
  refine (proj1 (find_account_first_match "prod" []
           [JObject [ ("name", JString "prod");
                      ("account_id", JString "222222222222");
                      ("role_arn",
                       JString "arn:aws:iam::222222222222:role/Admin") ]]
           (JObject [ ("name", JString "prod");
                      ("account_id", JString "111111111111") ]) _ _) _);
    reflexivity.
Defined.

Lemma find_account_none (account_name : string) (items : list json) :
  forallb account_ok items = true ->
  existsb (named account_name) items = false ->
  find_account account_name items = Ret None.
Proof.
  intros O N. rewrite <- (app_nil_r items).
  now rewrite find_account_front.
Qed.

(** X16.  For a name that no entry of a valid registry has, [assume_role]
    prints that the account is not found and returns [None]: STS is not
    called and neither the log nor any file is touched. *)
Theorem unknown_account_touches_nothing
        (e : env) (config : json) (items : list json)
        (account_name : string) (session_name : option string) (w : world) :
  getitem config "accounts" = Ret (JArray items) ->
  forallb account_ok items = true ->
  existsb (named account_name) items = false ->
  assume_role e config account_name session_name w
  = (printed w [MsgAccountNotFound account_name (JArray items)], Ret None).
Proof.
  intros G O N. unfold assume_role, bind, lift. rewrite G. cbn [items_of].
  now rewrite (find_account_none account_name items O N).
Qed.

Lemma unknown_account_touches_nothing_witness :
  assume_role (Sample.env_ok Sample.assume_prod)
    (SampleMore.registry_of SampleMore.twins) "staging" None
    SampleMore.fresh_world
  = (printed SampleMore.fresh_world
       [MsgAccountNotFound "staging" (JArray SampleMore.twins)],
     Ret None).
Proof.
  apply (unknown_account_touches_nothing (Sample.env_ok Sample.assume_prod)
           (SampleMore.registry_of SampleMore.twins) SampleMore.twins
           "staging" None SampleMore.fresh_world); reflexivity.
Defined.

(** X17.  When the first entry of the name has no [role_arn], the call
    ends there with [None]: STS is not called, nothing is logged, and a
    later entry of the same name that has a role is of no use. *)
Theorem first_entry_without_role_ends_attempt
        (e : env) (config : json) (front rest : list json)
        (fields : list (string * json))
        (account_name : string) (session_name : option string) (w : world) :
  getitem config "accounts" = Ret (JArray (front ++ JObject fields :: rest)) ->
  forallb account_ok front = true ->
  existsb (named account_name) front = false ->
  lookup "name" fields = Some (JString account_name) ->
  lookup "role_arn" fields = None ->
  assume_role e config account_name session_name w
  = (printed w [MsgNoRoleArn account_name], Ret None).
Proof.
  intros G O N Hn Hr. unfold assume_role, bind, lift. rewrite G.
  cbn [items_of].
  rewrite (find_account_hit account_name front rest (JObject fields))
    by (try assumption; unfold named; rewrite Hn; cbn;
        apply String.eqb_refl).
  cbn [truthy contains_key]. rewrite Hr.
  destruct fields; [discriminate | reflexivity].
Qed.

Lemma first_entry_without_role_ends_attempt_witness :
  assume_role (Sample.env_ok Sample.assume_prod)
    (SampleMore.registry_of SampleMore.twins) "prod" None
    SampleMore.fresh_world
  = (printed SampleMore.fresh_world [MsgNoRoleArn "prod"], Ret None).
Proof.
  apply (first_entry_without_role_ends_attempt
           (Sample.env_ok Sample.assume_prod)
           (SampleMore.registry_of SampleMore.twins) []
           [JObject [ ("name", JString "prod");
                      ("account_id", JString "222222222222");
                      ("role_arn",
                       JString "arn:aws:iam::222222222222:role/Admin") ]]
           [ ("name", JString "prod");
             ("account_id", JString "111111111111") ]
           "prod" None SampleMore.fresh_world); reflexivity.
Defined.

End Accounts.

(* ================================================================== *)
(** ** Returning, and the start of a run *)

Section Runs.

Import PyJson Registry Frames Lines Effects AccountManager.

Lemma find_account_result (account_name : string) (items : list json) :
  forallb account_ok items = true ->
  find_account account_name items = Ret None
  \/ exists fields name,
      find_account account_name items = Ret (Some (JObject fields))
      /\ lookup "name" fields = Some name.
Proof.
  induction items as [|a items IH]; [now left|]. cbn [forallb].
  intros O. apply andb_true_iff in O as [O1 O2].
  destruct (account_ok_name a O1) as [fields [name [E G]]]. subst a.
  cbn [find_account getitem]. rewrite G.
  destruct (eq_str account_name name); [|now apply IH].
  right. now exists fields, name.
Qed.

Lemma log_access_returns (e : env) (account_name session : string)
      (success : bool) (error : option string) (w : world) :
  snd (log_access e account_name session success error w) = Ret tt.
Proof. unfold log_access. now destruct (log_fault e) as [[text flushed]|]. Qed.

(** On a valid registry [assume_role] returns. *)
Lemma assume_role_returns
      (e : env) (config : json) (account_name : string)
      (session_name : option string) (w : world) :
  config_ok config = true ->
  exists r, snd (assume_role e config account_name session_name w) = Ret r.
Proof.
  intros C. destruct (config_ok_accounts config C) as [items [G O]].
  unfold assume_role, bind, lift. rewrite G. cbn [items_of].
  destruct (find_account_result account_name items O)
    as [F|[fields [name [F N]]]]; rewrite F.
  - eexists. reflexivity.
  - cbn [truthy contains_key getitem].
    destruct fields as [|f fields]; [discriminate|]. cbn [negb].
    destruct (lookup "role_arn" (f :: fields)) as [arn|];
      [|eexists; reflexivity].
    cbn [negb]. cbv zeta. rewrite print_one.
    match goal with
    | |- context [sts_assume_role e arn ?s] =>
        destruct (sts_assume_role e arn s) as [c|code msg|text]
    end.
    + rewrite print_one.
      match goal with
      | |- context [log_access ?a ?b ?c ?d ?f ?g] =>
          pose proof (log_access_returns a b c d f g) as L;
          destruct (log_access a b c d f g) as [w1 [[]|ex]]
      end; [eexists; reflexivity | discriminate].
    + rewrite print_one.
      destruct (code =? "AccessDenied"); [rewrite print_one|unfold ret at 1];
        match goal with
        | |- context [log_access ?a ?b ?c ?d ?f ?g] =>
            pose proof (log_access_returns a b c d f g) as L;
            destruct (log_access a b c d f g) as [w1 [[]|ex]]
        end; try discriminate; eexists; reflexivity.
    + rewrite print_one.
      match goal with
      | |- context [log_access ?a ?b ?c ?d ?f ?g] =>
          pose proof (log_access_returns a b c d f g) as L;
          destruct (log_access a b c d f g) as [w1 [[]|ex]]
      end; [eexists; reflexivity | discriminate].
Qed.

(** X18.  On a registry that passed validation [assume_role] never
    raises, whatever the name asked for, whatever STS answers and whether
    or not the log can be written, and it touches neither the
    credentials file nor the registry; it returns credentials only if
    STS granted them. *)
Theorem assume_role_never_raises
        (e : env) (config : json) (account_name : string)
        (session_name : option string) (w : world) :
  config_ok config = true ->
  let after := assume_role e config account_name session_name w in
  (exists r, snd after = Ret r)
  /\ credentials_file (fst after) = credentials_file w
  /\ config_file (fst after) = config_file w
  /\ (forall c, snd after = Ret (Some c) ->
                exists role_arn session,
                  sts_assume_role e role_arn session = Assumed c).
Proof.
  intros C after. subst after. split; [now apply assume_role_returns|].
  split; [|split].
  - exact (keeps_assume_role same_credentials same_credentials_refl
             same_credentials_trans (fun m w0 => eq_refl)
             (fun w0 more => eq_refl) e config account_name session_name w).
  - assert (T : forall a b c, same_config a b -> same_config b c ->
                              same_config a c)
      by (unfold same_config; congruence).
    exact (keeps_assume_role same_config (fun w0 => eq_refl) T
             (fun m w0 => eq_refl) (fun w0 more => eq_refl)
             e config account_name session_name w).
  - intros c H.
    destruct (assume_role e config account_name session_name w)
      as [w' r] eqn:E. cbn [snd] in H. subst r.
    exact (assume_role_some _ _ _ _ _ _ _ E).
Qed.

Lemma assume_role_never_raises_witness :
  exists r,
    snd (assume_role (Sample.env_log_fault (Failed "timeout")
              (Some ("No space left on device", 9)))
           (SampleMore.registry_of SampleMore.twins) "prod" (Some "")
           SampleMore.fresh_world) = Ret r.
Proof.
  refine (proj1 (assume_role_never_raises
                   (Sample.env_log_fault (Failed "timeout")
              (Some ("No space left on device", 9)))
                   (SampleMore.registry_of SampleMore.twins) "prod" (Some "")
                   SampleMore.fresh_world _)).
  reflexivity.
Defined.

Lemma count_lf_app (a b : string) :
  count_lf (a ++ b) = count_lf a + count_lf b.
Proof.
  induction a as [|ch a IH]; [reflexivity|]. cbn [append count_lf].
  rewrite IH. lia.
Qed.

Lemma count_lf_no_lf (s : string) : no_lf s = true -> count_lf s = 0.
Proof.
  unfold no_lf. induction s as [|ch s IH]; [reflexivity|]. cbn.
  intros H. apply andb_true_iff in H as [H1 H2].
  apply negb_true_iff in H1. rewrite H1. now apply IH.
Qed.

(** X19.  [log_access] never raises and touches only the log and the
    console.  When the log can be written it grows by the entry and a
    newline, which is one line when the time stamp, the account name, the
    session name and the error text hold no line feed. *)
Theorem audit_entry_is_one_line
        (e : env) (account_name session : string) (success : bool)
        (error : option string) (w : world) :
  let after := log_access e account_name session success error w in
  let entry := log_entry e account_name session success error in
  snd after = Ret tt
  /\ credentials_file (fst after) = credentials_file w
  /\ config_file (fst after) = config_file w
  /\ (log_fault e = None ->
      access_log (fst after) = (access_log w ++ ln entry)%string)
  /\ (no_lf (now_log e) = true -> no_lf account_name = true ->
      no_lf session = true ->
      (forall text, error = Some text -> no_lf text = true) ->
      count_lf (ln entry) = 1).
Proof.
  cbv zeta. split; [apply log_access_returns|].
  split; [|split; [|split]].
  - unfold log_access. now destruct (log_fault e) as [[text flushed]|].
  - unfold log_access. now destruct (log_fault e) as [[text flushed]|].
  - intros L. unfold log_access. now rewrite L.
  - intros Ht Ha Hs He. unfold ln. rewrite count_lf_app.
    rewrite count_lf_no_lf; [reflexivity|].
    unfold log_entry.
    assert (B : no_lf (now_log e ++ " - " ++ (if success then "SUCCESS" else "FAILED")
                       ++ " - Account: '" ++ account_name ++ "' - Session: "
                       ++ session) = true).
    { rewrite !no_lf_app, Ht, Ha, Hs. now destruct success. }
    destruct error as [text|]; [|exact B].
    destruct (text =? ""); [exact B|].
    rewrite !no_lf_app in *. rewrite B. cbn. now apply He.
Qed.

Lemma audit_entry_is_one_line_witness :
  count_lf (ln (log_entry (Sample.env_ok Sample.assume_prod) "prod"
                  "session-20260101-120000" false (Some "not authorized")))
  = 1.
Proof.
  refine (proj2 (proj2 (proj2 (proj2
            (audit_entry_is_one_line (Sample.env_ok Sample.assume_prod)
               "prod" "session-20260101-120000" false (Some "not authorized")
               SampleMore.fresh_world)))) _ _ _ _); try reflexivity.
  intros text E. injection E as <-. reflexivity.
Defined.

(** X20.  When the STS client cannot be made for want of credentials,
    [main] prints the help and the failure and ends there: no command is
    run, and nothing but the console has changed. *)
Theorem missing_credentials_end_main
        (e : env) (w : world) (config : json) (text : string) :
  config_file w = Some (Ret config) ->
  validate_config config = Ret tt ->
  sts_client e = Some (NoCredentialsError text) ->
  main e w
  = (printed w [MsgNoCredentialsHelp; MsgInitFailed (NoCredentialsError text)],
     Ret tt).
Proof.
  intros F V S. unfold main, init, bind, try_except.
  rewrite (load_config_outcome e w _ F), V, S.
  cbn. unfold printed. now rewrite <- app_assoc.
Qed.

Lemma missing_credentials_end_main_witness :
  main (SampleMore.env_no_credentials Sample.assume_prod)
    (Sample.world_with (Ret default_config) (Some Sample.three_sections))
  = (printed
       (Sample.world_with (Ret default_config) (Some Sample.three_sections))
       [MsgNoCredentialsHelp;
        MsgInitFailed (NoCredentialsError "Unable to locate credentials")],
     Ret tt).
Proof.
  apply (missing_credentials_end_main
           (SampleMore.env_no_credentials Sample.assume_prod)
           (Sample.world_with (Ret default_config)
              (Some Sample.three_sections))
           default_config "Unable to locate credentials"); reflexivity.
Defined.

Lemma load_config_absent (e : env) (w : world) :
  config_file w = None -> create_config_fault e = None ->
  load_config e w
  = ({| config_file := Some (Ret default_config);
        credentials_file := credentials_file w;
        access_log := access_log w;
        console := console w ++ [MsgConfigNotFound; MsgCreatedDefault] |},
     Ret default_config).
Proof.
  intros F C.
  unfold load_config, create_default_config, bind, get_world, try_except.
  rewrite F, C. cbn. now rewrite <- app_assoc.
Qed.

(** X21.  Without a registry file the default registry is written and
    loaded, and it passes validation.  If writing it fails, the error
    of the write is not turned into a [ConfigError]: it leaves
    [load_config], and [main] with it, as it is, after the one message,
    and the file stays as the failed write left it: absent when [open]
    failed, else created and holding a part of the text or all of it.
    A part is not written again: the next run, whatever its arguments
    and surroundings, finds the file, reports invalid JSON and ends
    there. *)
Theorem first_run_writes_default (e : env) (w : world) :
  config_file w = None ->
  (create_config_fault e = None ->
   load_config e w
   = ({| config_file := Some (Ret default_config);
         credentials_file := credentials_file w;
         access_log := access_log w;
         console := console w ++ [MsgConfigNotFound; MsgCreatedDefault] |},
      Ret default_config))
  /\ (forall text left,
         create_config_fault e = Some (OSError text, left) ->
         let after := left_as (printed w [MsgConfigNotFound]) left in
         load_config e w = (after, Raise (OSError text))
         /\ main e w = (after, Raise (OSError text)))
  /\ (forall text decode_error next,
         create_config_fault e = Some (OSError text, Fragment decode_error) ->
         let after := fst (main e w) in
         main next after
         = (printed after
              [MsgInitFailed
                 (ConfigError (InvalidJSON (JSONDecodeError decode_error)))],
            Ret tt)).
Proof.
  intros F. split; [now apply load_config_absent|].
  assert (L : forall text left,
             create_config_fault e = Some (OSError text, left) ->
             load_config e w
             = (left_as (printed w [MsgConfigNotFound]) left,
                Raise (OSError text))).
  { intros text left C.
    unfold load_config, create_default_config, bind, get_world.
    rewrite F, C. now destruct left. }
  assert (N : forall text left,
             create_config_fault e = Some (OSError text, left) ->
             main e w
             = (left_as (printed w [MsgConfigNotFound]) left,
                Raise (OSError text))).
  { intros text left C. unfold main, init, bind, try_except.
    now rewrite (L text left C). }
  split.
  - intros text left C. cbv zeta. split; [now apply L | now apply N].
  - intros text decode_error next C. cbv zeta. rewrite (N _ _ C). cbn [fst].
    unfold main, init, bind, try_except.
    now rewrite (load_config_outcome next
                   (left_as (printed w [MsgConfigNotFound])
                      (Fragment decode_error))
                   (Raise (JSONDecodeError decode_error)) eq_refl).
Qed.

(** The device is full: the file is created and stays empty. *)
Lemma first_run_writes_default_witness :
  let e := SampleMore.env_create_fault (OSError "No space left on device")
             (Fragment "Expecting value: line 1 column 1 (char 0)") in
  main e SampleMore.fresh_world
  = (left_as (printed SampleMore.fresh_world [MsgConfigNotFound])
       (Fragment "Expecting value: line 1 column 1 (char 0)"),
     Raise (OSError "No space left on device")).
Proof.
  cbv zeta.
  refine (proj2 (proj1 (proj2 (first_run_writes_default
            (SampleMore.env_create_fault (OSError "No space left on device")
               (Fragment "Expecting value: line 1 column 1 (char 0)"))
            SampleMore.fresh_world _)) "No space left on device"
            (Fragment "Expecting value: line 1 column 1 (char 0)") _));
    reflexivity.
Defined.

Lemma save_credentials_to_profile_returns
      (e : env) (account_name : string) (c : credentials)
      (profile_name : option string) (w : world) :
  mkdir_fault e = None -> read_fault e = None ->
  snd (save_credentials_to_profile e account_name c profile_name w) = Ret tt.
Proof.
  intros Hm Hr. unfold save_credentials_to_profile, bind, get_world.
  rewrite Hm, Hr.
  destruct (credentials_file w); destruct (write_fault e); reflexivity.
Qed.

Lemma run_command_returns (e : env) (config : json) (w : world) :
  config_ok config = true ->
  nth 1 (argv e) "" <> "whoami" ->
  mkdir_fault e = None -> read_fault e = None ->
  snd (run_command e config w) = Ret tt.
Proof.
  intros C Hw Hm Hr. unfold run_command.
  destruct (List.length (argv e) <? 2)%nat; [reflexivity|].
  destruct (arg e 1 =? "list").
  { destruct (config_ok_accounts config C) as [items [G _]].
    unfold list_accounts, bind, lift. now rewrite G. }
  destruct (arg e 1 =? "assume").
  { destruct (List.length (argv e) <? 3)%nat; [reflexivity|].
    unfold bind.
    destruct (assume_role_returns e config (arg e 2) None w C) as [r R].
    destruct (assume_role e config (arg e 2) None w) as [w1 o].
    cbn [snd] in R. subst o. destruct r as [c|]; [|reflexivity].
    now apply save_credentials_to_profile_returns. }
  destruct (arg e 1 =? "whoami") eqn:W; [|reflexivity].
  apply String.eqb_eq in W. contradiction.
Qed.

(** X22.  For every command but [whoami], [main] ends without an
    exception whenever the registry file exists, or can be created, the
    STS client can be made or fails for want of credentials, and the
    directory and the credentials file can be reached: a registry that
    cannot be read or is not valid, an account that is not known, a
    refusal of STS, a write or a log that fails with an [IOError] all
    end in a message, not in a raise.  ([get_current_identity] handles
    [ClientError] and [NoCredentialsError] only.) *)
Theorem main_returns (e : env) (w : world) :
  config_file w <> None \/ create_config_fault e = None ->
  sts_client e = None \/ (exists text, sts_client e = Some (NoCredentialsError text)) ->
  nth 1 (argv e) "" <> "whoami" ->
  mkdir_fault e = None -> read_fault e = None ->
  snd (main e w) = Ret tt.
Proof.
  intros Hc Hs Hw Hm Hr.
  assert (L : (exists w1 config,
                  load_config e w = (w1, Ret config) /\ config_ok config = true)
              \/ (exists w1 m, load_config e w = (w1, Raise (ConfigError m)))).
  { destruct (config_file w) as [r|] eqn:F.
    - rewrite (load_config_outcome e w r F).
      destruct r as [config|ex].
      + destruct (validate_config config) as [[]|ex] eqn:V.
        * left. exists w, config. split; [reflexivity|].
          now apply validate_config_ok.
        * right. now exists w, (wrapped ex).
      + right. now exists w, (wrapped ex).
    - destruct Hc as [Hc|Hc]; [congruence|].
      left. eexists. exists default_config.
      split; [now apply load_config_absent | reflexivity]. }
  unfold main, init, bind, try_except.
  destruct L as [[w1 [config [L C]]]|[w1 [m L]]]; rewrite L; [|reflexivity].
  destruct Hs as [S|[text S]]; rewrite S; [|reflexivity].
  now apply run_command_returns.
Qed.

(** The disk is full when the profile is written. *)
Lemma main_returns_witness :
  snd (main (Sample.env_write_fault (WriteFails "No space left on device" 7))
         (Sample.world_with (Ret (Sample.registry (JString "123456789012")))
            (Some Sample.three_sections)))
  = Ret tt.
Proof.
  apply (main_returns
           (Sample.env_write_fault (WriteFails "No space left on device" 7))
           (Sample.world_with (Ret (Sample.registry (JString "123456789012")))
              (Some Sample.three_sections)));
    [left; discriminate | left; reflexivity | discriminate
    | reflexivity | reflexivity].
Defined.

End Runs.
